(** * dockward: the Updater / Healer control loops and the control API

    Shallow embedding of [internal/watcher/updater.go], [healer.go],
    [metrics.go], the API handlers (NewAPI and friends), the registry
    client's [RemoteDigest] and the docker helpers the loops call.

    The engine, registry and compose tool are external: every call to
    them is answered by an environment record [Env] (one per activation
    of a function), and every mutating call is appended to a trace of
    [Call]s.  Goroutines spawned by the code ([go u.verifyAfterDeploy],
    [go h.verifyAfterRestart]) are recorded as [Task]s and run later as
    separate steps.  Each function runs atomically (locks are per field
    in the code; the interleavings between the read of a field and a
    later write of it are not modelled).  Time is Unix seconds in [Z]. *)

From Stdlib Require Import String Ascii ZArith List Bool.
From stdpp Require Import base gmap strings list fin_maps pretty.

Local Open Scope Z_scope.

(* ------------------------------------------------------------------ *)
(** ** Strings helpers (Go's [strings] package, as used) *)

(** [strings.HasPrefix s p]: [s] starts with [p]. *)
Fixpoint hasPrefix (s p : string) {struct p} : bool :=
  match p with
  | EmptyString => true
  | String c p' =>
      match s with
      | EmptyString => false
      | String d s' => Ascii.eqb c d && hasPrefix s' p'
      end
  end.

(** [strings.TrimPrefix s p] *)
Definition trimPrefix (s p : string) : string :=
  if hasPrefix s p
  then String.substring (String.length p) (String.length s - String.length p) s
  else s.

(** [strings.TrimRight s "/"]: drop every trailing '/'. *)
Fixpoint trimRightSlash (s : string) : string :=
  match s with
  | EmptyString => EmptyString
  | String c r =>
      let r' := trimRightSlash r in
      match r' with
      | EmptyString => if Ascii.eqb c "/"%char then EmptyString else String c EmptyString
      | _ => String c r'
      end
  end.

(** [strings.LastIndex s ":"] ([None] for -1). *)
Fixpoint lastIndexColon (s : string) : option nat :=
  match s with
  | EmptyString => None
  | String c r =>
      match lastIndexColon r with
      | Some i => Some (S i)
      | None => if Ascii.eqb c ":"%char then Some O else None
      end
  end.

(** [registryHost] in updater.go *)
Definition registryHost (url : string) : string :=
  trimRightSlash (trimPrefix (trimPrefix url "http://") "https://").

(** [imageName] in updater.go *)
Definition imageName (image : string) : string :=
  match lastIndexColon image with
  | Some i => String.substring 0 i image
  | None => image
  end.

(** [imageTag] in updater.go *)
Definition imageTag (image : string) : string :=
  match lastIndexColon image with
  | Some i => String.substring (S i) (String.length image - S i) image
  | None => "latest"
  end.

(** Go map reads return the zero value for a missing key. *)
Definition lookupS (m : gmap string string) (k : string) : string :=
  default ""%string (m !! k).
Definition lookupB (m : gmap string bool) (k : string) : bool :=
  default false (m !! k).
Definition lookupZ (m : gmap string Z) (k : string) : Z :=
  default 0 (m !! k).

(* ------------------------------------------------------------------ *)
(** ** Data model *)

(** [config.Service] (the fields the watcher reads). *)
Record Service := mkService {
  svc_Name : string;
  svc_Image : string;
  svc_ComposeFile : string;
  svc_ComposeProject : string;
  svc_ContainerName : string;
  svc_AutoUpdate : bool;
  svc_AutoHeal : bool;
  svc_HealthGrace : Z;      (* seconds *)
  svc_HealCooldown : Z;     (* seconds *)
  svc_HealMaxRestarts : Z;
}.

(** [config.Config] (registry URL and services). *)
Record Config := mkConfig {
  cfg_RegistryURL : string;
  cfg_Services : list Service;
}.

(** [notify.Alert]; the timestamp set by [Dispatcher.Send] is omitted. *)
Record Alert := mkAlert {
  al_Service : string;
  al_Event : string;
  al_Message : string;
  al_Reason : string;
  al_OldDigest : string;
  al_NewDigest : string;
  al_Container : string;
  al_Level : string;
}.

Definition LevelInfo : string := "info".
Definition LevelWarning : string := "warning".
Definition LevelCritical : string := "critical".

(** [docker.HealthLog], [docker.HealthState], [docker.ContainerState],
    [docker.ContainerInspect], [docker.Container], [docker.ImageInspect]. *)
Record HealthLog := mkHealthLog { hl_ExitCode : Z; hl_Output : string }.
Record HealthState := mkHealthState {
  hs_Status : string; hs_FailingStreak : Z; hs_Log : list HealthLog }.
Record ContainerState := mkContainerState {
  cs_Status : string; cs_Running : bool; cs_Health : option HealthState }.
Record ContainerInspect := mkContainerInspect {
  ci_ID : string; ci_Name : string; ci_Image : string; ci_State : ContainerState }.
Record Container := mkContainer { c_ID : string; c_Image : string }.
Record ImageInspect := mkImageInspect {
  img_ID : string; img_RepoDigests : list string; img_RepoTags : list string }.

(** [ContainerInspect.LastHealthOutput] *)
Definition LastHealthOutput (ci : ContainerInspect) : string :=
  match cs_Health (ci_State ci) with
  | None => ""
  | Some h =>
      match last (hs_Log h) with
      | None => ""
      | Some l => hl_Output l
      end
  end.

(** [ContainerInspect.ContainerName] *)
Definition ContainerName (ci : ContainerInspect) : string :=
  match ci_Name ci with
  | String c r => if Ascii.eqb c "/"%char then r else ci_Name ci
  | EmptyString => EmptyString
  end.

(** [ImageInspect.LocalDigest] *)
Fixpoint localDigestIn (prefix : string) (ds : list string) : string :=
  match ds with
  | [] => ""
  | d :: ds' =>
      if hasPrefix d prefix then
        match String.index 0 "@" d with
        | Some idx => String.substring (S idx) (String.length d - S idx) d
        | None => localDigestIn prefix ds'
        end
      else localDigestIn prefix ds'
  end.
Definition LocalDigest (img : ImageInspect) (prefix : string) : string :=
  localDigestIn prefix (img_RepoDigests img).

(** [docker.Event] with its actor. *)
Record Event := mkEvent {
  ev_Type : string;
  ev_Action : string;
  ev_ActorID : string;
  ev_Attributes : gmap string string;
}.

(** [Event.ContainerName] *)
Definition EventContainerName (e : Event) : string :=
  lookupS (ev_Attributes e) "name".

(** The event kinds requested by [streamOnce]'s filter
    [{"type":["container"],"event":["health_status","die","start"]}]. *)
Definition streamFilterTypes : list string := ["container"%string].
Definition streamFilterEvents : list string :=
  ["health_status"%string; "die"%string; "start"%string].

(** [watcher.Metrics] (per-service counters and gauges). *)
Record Metrics := mkMetrics {
  m_updates : gmap string Z;
  m_rollbacks : gmap string Z;
  m_restarts : gmap string Z;
  m_failures : gmap string Z;
  m_serviceHealthy : gmap string bool;
  m_serviceBlocked : gmap string bool;
}.

Definition incr (m : gmap string Z) (k : string) : gmap string Z :=
  <[k := lookupZ m k + 1]> m.

(** Mutating calls to the engine and the compose tool. *)
Inductive Call :=
| CTagImage (source repo tag : string)
| CComposePull (file project : string)
| CComposeUp (file project : string)
| CRemoveImage (ref : string)
| CRestartContainer (id : string) (timeoutSec : Z).

(** Goroutines spawned by the code. *)
Inductive Task :=
| TVerifyAfterDeploy (svc : Service) (oldDigest newDigest fullImage registryPrefix : string)
| TVerifyAfterRestart (svc : Service) (containerName containerID reason : string)
| TPollAll
| TCheckAndUpdate (svc : Service).

(** The whole process state: Updater maps, Healer maps, metrics, the
    alerts handed to [Dispatcher.Send], the external-call trace and the
    spawned tasks. *)
Record St := mkSt {
  deploying : gmap string Z;
  blocked : gmap string string;
  notFound : gmap string string;
  cooldowns : gmap string Z;
  degraded : gmap string bool;
  restartCounts : gmap string Z;
  metrics : Metrics;
  alerts : list Alert;
  calls : list Call;
  tasks : list Task;
}.

(** Answers of the external collaborators during one activation. *)
Inductive RegResp :=
| RegTransportError (msg : string)
| RegHTTP (status : Z) (digestHeader : string).

(** [time.Duration] arithmetic: int64 nanoseconds with two's-complement
    wrap-around. *)
Definition wrap64 (x : Z) : Z := Z.modulo (x + 2 ^ 63) (2 ^ 64) - 2 ^ 63.

(** [time.Duration(n) * time.Second] *)
Definition durationSeconds (n : Z) : Z := wrap64 (n * 1000000000).

Record Env := mkEnv {
  env_now : Z;                                           (* time.Now(), in nanoseconds *)
  env_registry : string -> RegResp;                      (* HEAD manifest *)
  env_inspectImage : string -> string + ImageInspect;
  env_listByProject : string -> string + list Container;
  env_inspectContainer : string -> string + ContainerInspect;
  env_tagImage : string -> string -> string -> option string;
  env_composePull : string -> string -> option string;
  env_composeUp : string -> string -> option string;
  env_restart : string -> Z -> option string;
}.

(** [registry.parseRef] *)
Definition parseRef (image : string) : string * string :=
  match lastIndexColon image with
  | Some i => (String.substring 0 i image,
               String.substring (S i) (String.length image - S i) image)
  | None => (image, "latest"%string)
  end.

(** [registry.Client.RemoteDigest]: [inl] is the error, [inr] the digest. *)
Definition RemoteDigest (image : string) (resp : RegResp) : string + string :=
  let '(name, tag) := parseRef image in
  match resp with
  | RegTransportError msg => inl ("HEAD: " ++ msg)%string
  | RegHTTP status digest =>
      if Z.eqb status 404 then inl ("image " ++ name ++ ":" ++ tag ++ " not found in registry")%string
      else if negb (Z.eqb status 200) then inl "HEAD: HTTP status"%string
      else if String.eqb digest "" then inl "no Docker-Content-Digest header"%string
      else inr digest
  end.

(* ------------------------------------------------------------------ *)
(** ** A small state monad over [St] *)

Definition M (A : Type) : Type := St -> A * St.
Definition ret {A} (a : A) : M A := fun st => (a, st).
Definition bind {A B} (m : M A) (k : A -> M B) : M B :=
  fun st => let '(a, st') := m st in k a st'.
Definition gets {A} (f : St -> A) : M A := fun st => (f st, st).
Definition modify (f : St -> St) : M unit := fun st => (tt, f st).

Notation "'let*' x ':=' m 'in' k" := (bind m (fun x => k))
  (at level 200, x name, m at level 100, k at level 200).
Notation "m ;; k" := (bind m (fun _ => k)) (at level 100, right associativity).

Definition set_deploying f st :=
  {| deploying := f (deploying st); blocked := blocked st; notFound := notFound st;
     cooldowns := cooldowns st; degraded := degraded st; restartCounts := restartCounts st;
     metrics := metrics st; alerts := alerts st; calls := calls st; tasks := tasks st |}.
Definition set_blocked f st :=
  {| deploying := deploying st; blocked := f (blocked st); notFound := notFound st;
     cooldowns := cooldowns st; degraded := degraded st; restartCounts := restartCounts st;
     metrics := metrics st; alerts := alerts st; calls := calls st; tasks := tasks st |}.
Definition set_notFound f st :=
  {| deploying := deploying st; blocked := blocked st; notFound := f (notFound st);
     cooldowns := cooldowns st; degraded := degraded st; restartCounts := restartCounts st;
     metrics := metrics st; alerts := alerts st; calls := calls st; tasks := tasks st |}.
Definition set_cooldowns f st :=
  {| deploying := deploying st; blocked := blocked st; notFound := notFound st;
     cooldowns := f (cooldowns st); degraded := degraded st; restartCounts := restartCounts st;
     metrics := metrics st; alerts := alerts st; calls := calls st; tasks := tasks st |}.
Definition set_degraded f st :=
  {| deploying := deploying st; blocked := blocked st; notFound := notFound st;
     cooldowns := cooldowns st; degraded := f (degraded st); restartCounts := restartCounts st;
     metrics := metrics st; alerts := alerts st; calls := calls st; tasks := tasks st |}.
Definition set_restartCounts f st :=
  {| deploying := deploying st; blocked := blocked st; notFound := notFound st;
     cooldowns := cooldowns st; degraded := degraded st; restartCounts := f (restartCounts st);
     metrics := metrics st; alerts := alerts st; calls := calls st; tasks := tasks st |}.
Definition set_metrics f st :=
  {| deploying := deploying st; blocked := blocked st; notFound := notFound st;
     cooldowns := cooldowns st; degraded := degraded st; restartCounts := restartCounts st;
     metrics := f (metrics st); alerts := alerts st; calls := calls st; tasks := tasks st |}.

(** [Dispatcher.Send]: the alert reaches every notifier; errors are swallowed. *)
Definition send (a : Alert) : M unit :=
  modify (fun st =>
    {| deploying := deploying st; blocked := blocked st; notFound := notFound st;
       cooldowns := cooldowns st; degraded := degraded st; restartCounts := restartCounts st;
       metrics := metrics st; alerts := alerts st ++ [a]; calls := calls st; tasks := tasks st |}).

(** An external mutating call is issued. *)
Definition issue (c : Call) : M unit :=
  modify (fun st =>
    {| deploying := deploying st; blocked := blocked st; notFound := notFound st;
       cooldowns := cooldowns st; degraded := degraded st; restartCounts := restartCounts st;
       metrics := metrics st; alerts := alerts st; calls := calls st ++ [c]; tasks := tasks st |}).

(** A [go] statement. *)
Definition spawn (t : Task) : M unit :=
  modify (fun st =>
    {| deploying := deploying st; blocked := blocked st; notFound := notFound st;
       cooldowns := cooldowns st; degraded := degraded st; restartCounts := restartCounts st;
       metrics := metrics st; alerts := alerts st; calls := calls st; tasks := tasks st ++ [t] |}).

(** Metrics methods. *)
Definition IncUpdates (s : string) : M unit :=
  modify (set_metrics (fun m => {| m_updates := incr (m_updates m) s; m_rollbacks := m_rollbacks m;
    m_restarts := m_restarts m; m_failures := m_failures m;
    m_serviceHealthy := m_serviceHealthy m; m_serviceBlocked := m_serviceBlocked m |})).
Definition IncRollbacks (s : string) : M unit :=
  modify (set_metrics (fun m => {| m_updates := m_updates m; m_rollbacks := incr (m_rollbacks m) s;
    m_restarts := m_restarts m; m_failures := m_failures m;
    m_serviceHealthy := m_serviceHealthy m; m_serviceBlocked := m_serviceBlocked m |})).
Definition IncRestarts (s : string) : M unit :=
  modify (set_metrics (fun m => {| m_updates := m_updates m; m_rollbacks := m_rollbacks m;
    m_restarts := incr (m_restarts m) s; m_failures := m_failures m;
    m_serviceHealthy := m_serviceHealthy m; m_serviceBlocked := m_serviceBlocked m |})).
Definition IncFailures (s : string) : M unit :=
  modify (set_metrics (fun m => {| m_updates := m_updates m; m_rollbacks := m_rollbacks m;
    m_restarts := m_restarts m; m_failures := incr (m_failures m) s;
    m_serviceHealthy := m_serviceHealthy m; m_serviceBlocked := m_serviceBlocked m |})).
Definition SetHealthy (s : string) (b : bool) : M unit :=
  modify (set_metrics (fun m => {| m_updates := m_updates m; m_rollbacks := m_rollbacks m;
    m_restarts := m_restarts m; m_failures := m_failures m;
    m_serviceHealthy := <[s := b]> (m_serviceHealthy m); m_serviceBlocked := m_serviceBlocked m |})).
Definition SetBlocked (s : string) (b : bool) : M unit :=
  modify (set_metrics (fun m => {| m_updates := m_updates m; m_rollbacks := m_rollbacks m;
    m_restarts := m_restarts m; m_failures := m_failures m;
    m_serviceHealthy := m_serviceHealthy m; m_serviceBlocked := <[s := b]> (m_serviceBlocked m) |})).

(* ------------------------------------------------------------------ *)
(** ** Updater (updater.go) *)

Section Updater.

Variable cfg : Config.

(** [IsDeploying] *)
Definition IsDeploying (st : St) (service : string) : bool :=
  bool_decide (is_Some (deploying st !! service)).

(** [tryStartDeploy]: atomic test-and-set on [deploying]. *)
Definition tryStartDeploy (now : Z) (service : string) : M bool :=
  let* b := gets (fun st => IsDeploying st service) in
  if b then ret false
  else modify (set_deploying (fun d => <[service := now]> d)) ;; ret true.

(** [clearDeploying] *)
Definition clearDeploying (service : string) : M unit :=
  modify (set_deploying (fun d => delete service d)).

(** [findContainerByProject]: first listed container, [""] on error or none. *)
Definition findContainerByProject (env : Env) (project : string) : string :=
  match env_listByProject env project with
  | inl _ => ""
  | inr [] => ""
  | inr (c :: _) => c_ID c
  end.

Definition registryPrefixOf (svc : Service) : string :=
  (registryHost (cfg_RegistryURL cfg) ++ "/" ++ imageName (svc_Image svc))%string.

(** [resolveLocalDigest]: strategy 1 (inspect by reference), then
    strategy 2 (container by project label, its image ID, inspect by ID). *)
Definition resolveLocalDigest (env : Env) (svc : Service) (registryPrefix : string) : string :=
  let fullImage := (registryPrefix ++ ":" ++ imageTag (svc_Image svc))%string in
  let d1 := match env_inspectImage env fullImage with
            | inr localImg => LocalDigest localImg registryPrefix
            | inl _ => ""
            end in
  if negb (String.eqb d1 "") then d1 else
  let containerID := findContainerByProject env (svc_ComposeProject svc) in
  if String.eqb containerID "" then "" else
  match env_inspectContainer env containerID with
  | inl _ => ""
  | inr info =>
      match env_inspectImage env (ci_Image info) with
      | inl _ => ""
      | inr imgByID => LocalDigest imgByID registryPrefix
      end
  end.

(** [cleanupRollback] *)
Definition cleanupRollback (registryPrefix : string) : M unit :=
  issue (CRemoveImage (registryPrefix ++ ":rollback")).

(** [onDeploySuccess] *)
Definition onDeploySuccess (svc : Service) (oldDigest newDigest containerName registryPrefix : string)
  : M unit :=
  IncUpdates (svc_Name svc) ;;
  SetHealthy (svc_Name svc) true ;;
  send (mkAlert (svc_Name svc) "updated" "Deployed new image successfully." ""
                oldDigest newDigest containerName LevelInfo) ;;
  cleanupRollback registryPrefix.

(** The "Block this digest" step of [rollback]. *)
Definition blockDigest (svc : Service) (newDigest : string) : M unit :=
  modify (set_blocked (fun b => <[svc_Name svc := newDigest]> b)) ;;
  SetBlocked (svc_Name svc) true.

(** The part of [rollback] after blocking: retag, compose up, alert. *)
Definition rollbackRestore (env : Env) (svc : Service)
  (oldDigest newDigest registryPrefix reason : string) : M unit :=
  let rollbackImage := (registryPrefix ++ ":rollback")%string in
  let tag := imageTag (svc_Image svc) in
  issue (CTagImage rollbackImage registryPrefix tag) ;;
  match env_tagImage env rollbackImage registryPrefix tag with
  | Some _ =>
      IncFailures (svc_Name svc) ;;
      send (mkAlert (svc_Name svc) "rolled_back" "Rollback failed: could not retag image."
                    reason oldDigest newDigest "" LevelCritical)
  | None =>
      issue (CComposeUp (svc_ComposeFile svc) (svc_ComposeProject svc)) ;;
      match env_composeUp env (svc_ComposeFile svc) (svc_ComposeProject svc) with
      | Some _ =>
          IncFailures (svc_Name svc) ;;
          send (mkAlert (svc_Name svc) "rolled_back" "Rollback compose up failed."
                        reason oldDigest newDigest "" LevelCritical)
      | None =>
          send (mkAlert (svc_Name svc) "rolled_back" "Rolled back to previous image."
                        reason oldDigest newDigest "" LevelWarning) ;;
          cleanupRollback registryPrefix
      end
  end.

(** [rollback] *)
Definition rollback (env : Env) (svc : Service)
  (oldDigest newDigest fullImage registryPrefix reason : string) : M unit :=
  IncRollbacks (svc_Name svc) ;;
  SetHealthy (svc_Name svc) false ;;
  blockDigest svc newDigest ;;
  rollbackRestore env svc oldDigest newDigest registryPrefix reason.

(** One tick of the [verifyAfterDeploy] loop; [true] means the loop returns. *)
Definition verifyTick (env : Env) (svc : Service)
  (oldDigest newDigest fullImage registryPrefix : string) (deadline : Z) : M bool :=
  let now := env_now env in
  let containerID := findContainerByProject env (svc_ComposeProject svc) in
  if String.eqb containerID "" then
    if Z.gtb now deadline then
      rollback env svc oldDigest newDigest fullImage registryPrefix
               "container not found after deploy" ;; ret true
    else ret false
  else
  match env_inspectContainer env containerID with
  | inl err =>
      if Z.gtb now deadline then
        rollback env svc oldDigest newDigest fullImage registryPrefix
                 ("inspect failed: " ++ err)%string ;; ret true
      else ret false
  | inr info =>
      match cs_Health (ci_State info) with
      | None =>
          if cs_Running (ci_State info) then
            onDeploySuccess svc oldDigest newDigest (ContainerName info) registryPrefix ;; ret true
          else if Z.gtb now deadline then
            rollback env svc oldDigest newDigest fullImage registryPrefix
                     "container not running" ;; ret true
          else ret false
      | Some h =>
          if String.eqb (hs_Status h) "healthy" then
            onDeploySuccess svc oldDigest newDigest (ContainerName info) registryPrefix ;; ret true
          else if String.eqb (hs_Status h) "unhealthy" then
            rollback env svc oldDigest newDigest fullImage registryPrefix
                     (LastHealthOutput info) ;; ret true
          else if Z.gtb now deadline then
            rollback env svc oldDigest newDigest fullImage registryPrefix
                     (LastHealthOutput info) ;; ret true
          else ret false
      end
  end.

(** The ticker loop: one [Env] per tick; running out of ticks is
    [ctx.Done()]. *)
Fixpoint verifyLoop (ticks : list Env) (svc : Service)
  (oldDigest newDigest fullImage registryPrefix : string) (deadline : Z) : M unit :=
  match ticks with
  | [] => ret tt
  | env :: rest =>
      let* done_ := verifyTick env svc oldDigest newDigest fullImage registryPrefix deadline in
      if done_ then ret tt
      else verifyLoop rest svc oldDigest newDigest fullImage registryPrefix deadline
  end.

(** [verifyAfterDeploy]: [start] is [time.Now()] at its entry and the
    deadline is [time.Now().Add(time.Duration(svc.HealthGrace) * time.Second)]
    ([Time.Add] of an int64 duration does not wrap);
    [defer u.clearDeploying] runs on every exit. *)
Definition verifyAfterDeploy (start : Z) (ticks : list Env) (svc : Service)
  (oldDigest newDigest fullImage registryPrefix : string) : M unit :=
  verifyLoop ticks svc oldDigest newDigest fullImage registryPrefix
             (start + durationSeconds (svc_HealthGrace svc)) ;;
  clearDeploying (svc_Name svc).

(** [deploy]: [None] is a nil error. *)
Definition deploy (env : Env) (svc : Service) (oldDigest newDigest : string)
  : M (option string) :=
  let* ok := tryStartDeploy (env_now env) (svc_Name svc) in
  if negb ok then ret None else
  let registryPrefix := registryPrefixOf svc in
  let fullImage := (registryPrefix ++ ":" ++ imageTag (svc_Image svc))%string in
  (if negb (String.eqb oldDigest "")
   then issue (CTagImage fullImage registryPrefix "rollback")
   else ret tt) ;;
  issue (CComposePull (svc_ComposeFile svc) (svc_ComposeProject svc)) ;;
  match env_composePull env (svc_ComposeFile svc) (svc_ComposeProject svc) with
  | Some err => clearDeploying (svc_Name svc) ;; ret (Some ("compose pull: " ++ err)%string)
  | None =>
      issue (CComposeUp (svc_ComposeFile svc) (svc_ComposeProject svc)) ;;
      match env_composeUp env (svc_ComposeFile svc) (svc_ComposeProject svc) with
      | Some err => clearDeploying (svc_Name svc) ;; ret (Some ("compose up: " ++ err)%string)
      | None =>
          spawn (TVerifyAfterDeploy svc oldDigest newDigest fullImage registryPrefix) ;;
          ret None
      end
  end.

(** [checkAndUpdate] from step 2 on (local digest and compare). *)
Definition checkResolveStage (env : Env) (svc : Service) (remoteDigest : string)
  : M (option string) :=
  let registryPrefix := registryPrefixOf svc in
  let localDigest := resolveLocalDigest env svc registryPrefix in
  if String.eqb localDigest "" then
    modify (set_notFound (fun nf => <[svc_Name svc := remoteDigest]> nf)) ;;
    send (mkAlert (svc_Name svc) "not_found"
            "Image not found locally. Verify compose file image field matches registry. Suppressing until registry digest changes."
            "" "" "" "" LevelWarning) ;;
    ret None
  else if String.eqb localDigest remoteDigest then ret None
  else deploy env svc localDigest remoteDigest.

(** [checkAndUpdate] from the notFound suppression check on. *)
Definition checkNotFoundStage (env : Env) (svc : Service) (remoteDigest : string)
  : M (option string) :=
  let* notFoundDigest := gets (fun st => lookupS (notFound st) (svc_Name svc)) in
  if negb (String.eqb notFoundDigest "") then
    if String.eqb notFoundDigest remoteDigest then ret None
    else modify (set_notFound (fun nf => delete (svc_Name svc) nf)) ;;
         checkResolveStage env svc remoteDigest
  else checkResolveStage env svc remoteDigest.

(** [checkAndUpdate] *)
Definition checkAndUpdate (env : Env) (svc : Service) : M (option string) :=
  match RemoteDigest (svc_Image svc) (env_registry env (svc_Image svc)) with
  | inl err => ret (Some ("remote digest: " ++ err)%string)
  | inr remoteDigest =>
      let* blockedDigest := gets (fun st => lookupS (blocked st) (svc_Name svc)) in
      if negb (String.eqb blockedDigest "") then
        if String.eqb blockedDigest remoteDigest then ret None
        else modify (set_blocked (fun b => delete (svc_Name svc) b)) ;;
             SetBlocked (svc_Name svc) false ;;
             checkNotFoundStage env svc remoteDigest
      else checkNotFoundStage env svc remoteDigest
  end.

(** [BlockedDigests] and [NotFoundServices]: copies of the maps. *)
Definition BlockedDigests (st : St) : gmap string string := blocked st.
Definition NotFoundServices (st : St) : gmap string string := notFound st.

(** [UnblockService] *)
Definition UnblockService (service : string) : M bool :=
  let* ok := gets (fun st => bool_decide (is_Some (blocked st !! service))) in
  modify (set_blocked (fun b => delete service b)) ;;
  (if ok then SetBlocked service false else ret tt) ;;
  ret ok.

End Updater.

(* ------------------------------------------------------------------ *)
(** ** Healer (healer.go) *)

Section Healer.

Variable cfg : Config.

(** [setDegraded] *)
Definition setDegraded (serviceName : string) (b : bool) : M unit :=
  modify (set_degraded (fun d => if b then <[serviceName := true]> d else delete serviceName d)).

(** [isDegraded] *)
Definition isDegraded (st : St) (serviceName : string) : bool :=
  lookupB (degraded st) serviceName.

(** [inCooldown]: [time.Now().Before(deadline)]. *)
Definition inCooldown (now : Z) (st : St) (containerName : string) : bool :=
  match cooldowns st !! containerName with
  | None => false
  | Some deadline => Z.ltb now deadline
  end.

(** [findServiceByEvent]: first service matching the compose project
    label or the container name attribute. *)
Fixpoint findServiceIn (project name : string) (svcs : list Service) : option Service :=
  match svcs with
  | [] => None
  | svc :: rest =>
      if negb (String.eqb project "") && String.eqb (svc_ComposeProject svc) project
      then Some svc
      else if negb (String.eqb name "") && String.eqb (svc_ContainerName svc) name
      then Some svc
      else findServiceIn project name rest
  end.

Definition findServiceByEvent (event : Event) : option Service :=
  let project := lookupS (ev_Attributes event) "com.docker.compose.project" in
  let name := lookupS (ev_Attributes event) "name" in
  findServiceIn project name (cfg_Services cfg).

(** [handleUnhealthy] *)
Definition handleUnhealthy (env : Env) (svc : Service) (containerName containerID : string)
  : M unit :=
  let* dep := gets (fun st => IsDeploying st (svc_Name svc)) in
  if dep then ret tt else
  let reason := match env_inspectContainer env containerID with
                | inr info => LastHealthOutput info
                | inl _ => ""
                end in
  SetHealthy (svc_Name svc) false ;;
  setDegraded (svc_Name svc) true ;;
  if negb (svc_AutoHeal svc) then
    send (mkAlert (svc_Name svc) "unhealthy" "Container is unhealthy." reason "" ""
                  containerName LevelWarning)
  else
  let* count := gets (fun st => lookupZ (restartCounts st) (svc_Name svc)) in
  if Z.geb count (svc_HealMaxRestarts svc) then ret tt else
  let* cool := gets (fun st => inCooldown (env_now env) st containerName) in
  if cool then ret tt else
  issue (CRestartContainer containerID 10) ;;
  match env_restart env containerID 10 with
  | Some _ =>
      IncFailures (svc_Name svc) ;;
      send (mkAlert (svc_Name svc) "critical" "Failed to restart unhealthy container." reason
                    "" "" containerName LevelCritical)
  | None =>
      modify (set_cooldowns (fun c =>
        <[containerName := env_now env + durationSeconds (svc_HealCooldown svc)]> c)) ;;
      spawn (TVerifyAfterRestart svc containerName containerID reason)
  end.

(** [verifyAfterRestart]; [None] is cancellation during the 30 s sleep. *)
Definition verifyAfterRestart (oenv : option Env) (svc : Service)
  (containerName containerID reason : string) : M unit :=
  match oenv with
  | None => ret tt
  | Some env =>
  match env_inspectContainer env containerID with
  | inl _ => ret tt
  | inr info =>
      let unhealthy := match cs_Health (ci_State info) with
                       | Some h => String.eqb (hs_Status h) "unhealthy"
                       | None => false
                       end in
      if unhealthy then
        IncFailures (svc_Name svc) ;;
        modify (set_restartCounts (fun r => incr r (svc_Name svc))) ;;
        let* count := gets (fun st => lookupZ (restartCounts st) (svc_Name svc)) in
        if Z.geb count (svc_HealMaxRestarts svc) then
          send (mkAlert (svc_Name svc) "critical"
                  ("Giving up after " ++ pretty count ++
                   " consecutive failed restarts. Manual intervention required.")
                  (LastHealthOutput info) "" "" containerName LevelCritical)
        else
          send (mkAlert (svc_Name svc) "critical"
                  ("Container still unhealthy after restart (attempt " ++ pretty count ++ "/"
                   ++ pretty (svc_HealMaxRestarts svc) ++ ").")
                  (LastHealthOutput info) "" "" containerName LevelCritical)
      else
        IncRestarts (svc_Name svc) ;;
        SetHealthy (svc_Name svc) true ;;
        send (mkAlert (svc_Name svc) "restarted" "Restarted unhealthy container successfully."
                      reason "" "" containerName LevelWarning)
  end
  end.

(** [handleHealthy] *)
Definition handleHealthy (svc : Service) (containerName : string) : M unit :=
  let* wasCooling := gets (fun st => bool_decide (is_Some (cooldowns st !! containerName))) in
  let* wasDegraded := gets (fun st => isDegraded st (svc_Name svc)) in
  if negb wasCooling && negb wasDegraded then ret tt else
  SetHealthy (svc_Name svc) true ;;
  setDegraded (svc_Name svc) false ;;
  modify (set_restartCounts (fun r => delete (svc_Name svc) r)) ;;
  send (mkAlert (svc_Name svc) "healthy" "Container recovered and is healthy." "" "" ""
                containerName LevelInfo).

(** [handleDied] *)
Definition handleDied (svc : Service) (containerName : string) : M unit :=
  let* dep := gets (fun st => IsDeploying st (svc_Name svc)) in
  if dep then ret tt else
  SetHealthy (svc_Name svc) false ;;
  setDegraded (svc_Name svc) true ;;
  send (mkAlert (svc_Name svc) "died" "Container exited unexpectedly." "" "" ""
                containerName LevelCritical).

(** [handleEvent] *)
Definition handleEvent (env : Env) (event : Event) : M unit :=
  let containerName := EventContainerName event in
  let containerID := ev_ActorID event in
  match findServiceByEvent event with
  | None => ret tt
  | Some svc =>
      if hasPrefix (ev_Action event) "health_status: unhealthy" then
        handleUnhealthy env svc containerName containerID
      else if hasPrefix (ev_Action event) "health_status: healthy" then
        handleHealthy svc containerName
      else if String.eqb (ev_Action event) "die" then
        handleDied svc containerName
      else ret tt
  end.

End Healer.

(* ------------------------------------------------------------------ *)
(** ** Control API (NewAPI and its handlers) *)

Record Request := mkRequest { req_Method : string; req_Path : string }.

Inductive Body :=
| BText (s : string)                          (* http.Error / plain text *)
| BJSONObject (kv : list (string * string))   (* writeJSON of map[string]string literal *)
| BJSONMap (m : gmap string string)           (* writeJSON of a map snapshot *)
| BMetrics (m : Metrics)                      (* a.metrics.Prometheus() *)
| BRedirect (location : string).              (* http.Redirect *)

Record Response := mkResponse { resp_Status : Z; resp_ContentType : string; resp_Body : Body }.

Definition MethodGet : string := "GET".
Definition MethodPost : string := "POST".
Definition MethodDelete : string := "DELETE".

(** [http.Error] *)
Definition httpError (msg : string) (code : Z) : Response :=
  mkResponse code "text/plain; charset=utf-8" (BText (msg ++ String (Ascii.ascii_of_nat 10) "")).

(** [writeJSON] *)
Definition writeJSONObj (kv : list (string * string)) : Response :=
  mkResponse 200 "application/json" (BJSONObject kv).
Definition writeJSONMap (m : gmap string string) : Response :=
  mkResponse 200 "application/json" (BJSONMap m).

(** [strings.Split s "/"] *)
Fixpoint splitSlash (s : string) : list string :=
  match s with
  | EmptyString => [EmptyString]
  | String c r =>
      let parts := splitSlash r in
      if Ascii.eqb c "/"%char then EmptyString :: parts
      else match parts with
           | p :: ps => String c p :: ps
           | [] => [String c EmptyString]
           end
  end.

(** [strings.Join l "/"] *)
Fixpoint joinSlash (l : list string) : string :=
  match l with
  | [] => EmptyString
  | [x] => x
  | x :: r => (x ++ "/" ++ joinSlash r)%string
  end.

(** [path.Clean] on a rooted path (the only kind [cleanPath] passes),
    by its rules: repeated slashes collapse, "." elements are dropped,
    ".." removes the element before it, ".." at the root is dropped, and
    an empty result is "/". The stack holds the kept elements, last first. *)
Definition cleanStep (stack : list string) (elem : string) : list string :=
  if String.eqb elem "" || String.eqb elem "." then stack
  else if String.eqb elem ".." then tail stack
  else elem :: stack.
Definition pathCleanRooted (p : string) : string :=
  ("/" ++ joinSlash (rev (fold_left cleanStep (splitSlash p) [])))%string.

(** [net/http.cleanPath] *)
Definition cleanPath (p0 : string) : string :=
  if String.eqb p0 "" then "/"%string else
  let p := match p0 with
           | String c _ => if Ascii.eqb c "/"%char then p0 else ("/" ++ p0)%string
           | EmptyString => ("/" ++ p0)%string
           end in
  let np := pathCleanRooted p in
  let lastSlash := match String.get (String.length p - 1) p with
                   | Some c => Ascii.eqb c "/"%char
                   | None => false
                   end in
  if lastSlash && negb (String.eqb np "/") then
    if Nat.eqb (String.length p) (S (String.length np)) && hasPrefix p np then p
    else (np ++ "/")%string
  else np.

Section API.

Variable cfg : Config.

(** [handleTriggerAll] *)
Definition handleTriggerAll (r : Request) : M Response :=
  if negb (String.eqb (req_Method r) MethodPost) then ret (httpError "method not allowed" 405) else
  spawn TPollAll ;;
  ret (writeJSONObj [("status", "triggered"); ("scope", "all")]%string).

(** The service loop of [handleTriggerService]. *)
Fixpoint triggerLoop (serviceName : string) (svcs : list Service) : M (option Response) :=
  match svcs with
  | [] => ret None
  | svc :: rest =>
      if String.eqb (svc_Name svc) serviceName then
        if negb (svc_AutoUpdate svc) then
          ret (Some (writeJSONObj [("status", "skipped"); ("reason", "auto_update is false")]%string))
        else
        let* dep := gets (fun st => IsDeploying st serviceName) in
        if dep then
          ret (Some (writeJSONObj [("status", "skipped"); ("reason", "deploy in progress")]%string))
        else
          spawn (TCheckAndUpdate svc) ;;
          ret (Some (writeJSONObj [("status", "triggered"); ("scope", serviceName)]%string))
      else triggerLoop serviceName rest
  end.

(** [handleTriggerService] *)
Definition handleTriggerService (r : Request) : M Response :=
  if negb (String.eqb (req_Method r) MethodPost) then ret (httpError "method not allowed" 405) else
  let serviceName := trimPrefix (req_Path r) "/trigger/" in
  if String.eqb serviceName "" then ret (httpError "service name required" 400) else
  let* res := triggerLoop serviceName (cfg_Services cfg) in
  match res with
  | Some resp => ret resp
  | None => ret (httpError "service not found" 404)
  end.

(** [handleListBlocked] *)
Definition handleListBlocked (r : Request) : M Response :=
  if negb (String.eqb (req_Method r) MethodGet) then ret (httpError "method not allowed" 405) else
  let* m := gets BlockedDigests in
  ret (writeJSONMap m).

(** [handleUnblockService] *)
Definition handleUnblockService (r : Request) : M Response :=
  if negb (String.eqb (req_Method r) MethodDelete) then ret (httpError "method not allowed" 405) else
  let serviceName := trimPrefix (req_Path r) "/blocked/" in
  if String.eqb serviceName "" then ret (httpError "service name required" 400) else
  let* ok := UnblockService serviceName in
  if ok then ret (writeJSONObj [("status", "unblocked"); ("service", serviceName)]%string)
  else ret (writeJSONObj [("status", "not_blocked"); ("service", serviceName)]%string).

(** [handleHealth] (the request is ignored: [_ *http.Request]). *)
Definition handleHealth (_ : Request) : M Response :=
  ret (writeJSONObj [("status", "ok")]%string).

(** [handleMetrics] (the request is ignored: [_ *http.Request]). *)
Definition handleMetrics (_ : Request) : M Response :=
  let* m := gets metrics in
  ret (mkResponse 200 "text/plain; version=0.0.4; charset=utf-8" (BMetrics m)).

(** The handlers [NewAPI] registers. *)
Inductive Handler :=
| HTriggerAll | HTriggerService | HListBlocked | HUnblockService | HHealth | HMetrics.

Definition runHandler (h : Handler) : Request -> M Response :=
  match h with
  | HTriggerAll => handleTriggerAll
  | HTriggerService => handleTriggerService
  | HListBlocked => handleListBlocked
  | HUnblockService => handleUnblockService
  | HHealth => handleHealth
  | HMetrics => handleMetrics
  end.

(** The routes [NewAPI] registers on its [http.ServeMux], in order. *)
Definition routes : list (string * Handler) :=
  [("/trigger", HTriggerAll); ("/trigger/", HTriggerService);
   ("/blocked", HListBlocked); ("/blocked/", HUnblockService);
   ("/health", HHealth); ("/metrics", HMetrics)]%string.

Definition patternMatches (pattern path : string) : bool :=
  match String.get (String.length pattern - 1) pattern with
  | Some c => if Ascii.eqb c "/"%char then hasPrefix path pattern else String.eqb path pattern
  | None => false
  end.

(** [ServeMux] dispatch for an already clean path: the longest matching
    pattern wins (an exact pattern only matches itself, a pattern ending
    in '/' matches its subtree); no match is [http.NotFound]. *)
Fixpoint bestRoute (path : string) (rs : list (string * Handler)) : option (string * Handler) :=
  match rs with
  | [] => None
  | (p, h) :: rest =>
      let best := bestRoute path rest in
      if patternMatches p path then
        match best with
        | Some (p', h') => if Nat.ltb (String.length p) (String.length p') then Some (p', h')
                           else Some (p, h)
        | None => Some (p, h)
        end
      else best
  end.

(** [ServeMux.ServeHTTP]: a request other than CONNECT whose path is
    not clean is redirected to the cleaned path (307, with the HTML body
    [http.Redirect] writes for GET and HEAD); any other request is
    dispatched. The "/tree" to "/tree/" redirect never applies here:
    "/trigger" and "/blocked" are registered next to their subtrees. *)
Definition serveAPI (r : Request) : M Response :=
  if negb (String.eqb (req_Method r) "CONNECT") &&
     negb (String.eqb (cleanPath (req_Path r)) (req_Path r))
  then ret (mkResponse 307
              (if String.eqb (req_Method r) MethodGet || String.eqb (req_Method r) "HEAD"
               then "text/html; charset=utf-8" else "")
              (BRedirect (cleanPath (req_Path r))))
  else
  match bestRoute (req_Path r) routes with
  | Some (_, h) => runHandler h r
  | None => ret (httpError "404 page not found" 404)
  end.

End API.

(* ------------------------------------------------------------------ *)
(** ** Whole-process steps *)

(** Every activation the process can perform, each run atomically:
    a poll of one service (from [pollAll], a trigger or [TCheckAndUpdate]),
    a spawned verify-after-deploy task, an unblock, one stream event, a
    verify-after-restart task, one API request. *)
Inductive step (cfg : Config) : St -> St -> Prop :=
| StepCheck (env : Env) (svc : Service) (st : St) :
    step cfg st (snd (checkAndUpdate cfg env svc st))
| StepVerifyDeploy (start : Z) (ticks : list Env) (svc : Service) (o n f p : string) (st : St) :
    In (TVerifyAfterDeploy svc o n f p) (tasks st) ->
    step cfg st (snd (verifyAfterDeploy start ticks svc o n f p st))
| StepUnblock (s : string) (st : St) :
    step cfg st (snd (UnblockService s st))
| StepEvent (env : Env) (e : Event) (st : St) :
    step cfg st (snd (handleEvent cfg env e st))
| StepVerifyRestart (oenv : option Env) (svc : Service) (cn cid r : string) (st : St) :
    step cfg st (snd (verifyAfterRestart oenv svc cn cid r st))
| StepAPI (r : Request) (st : St) :
    step cfg st (snd (serveAPI cfg r st)).

(** Digests stored in [blocked] and [notFound], and the new digest of
    every pending verification, are non-empty (they all come from
    [RemoteDigest], which rejects an empty header). *)
Definition taskWF (t : Task) : Prop :=
  match t with
  | TVerifyAfterDeploy _ _ n _ _ => n <> ""%string
  | _ => True
  end.
Definition digestsWF (st : St) : Prop :=
  map_Forall (fun _ d => d <> ""%string) (blocked st) /\
  map_Forall (fun _ d => d <> ""%string) (notFound st) /\
  Forall taskWF (tasks st).

(** A computation whose every run relates its initial and final state by [R]. *)
Definition respects (R : St -> St -> Prop) {A} (m : M A) : Prop :=
  forall st, R st (snd (m st)).

(** Keys of the cooldown map only accumulate. *)
Definition cooldownsGrow (st st' : St) : Prop :=
  forall k, is_Some (cooldowns st !! k) -> is_Some (cooldowns st' !! k).

Definition wfPreserved (st st' : St) : Prop := digestsWF st -> digestsWF st'.

(* ------------------------------------------------------------------ *)
(** ** Sample configuration and state used in the examples *)

Definition svcApi : Service :=
  mkService "api" "myapp:1.2" "/srv/api/compose.yml" "apiproj" "api" true true 60 300 3.
Definition svcWeb : Service :=
  mkService "web" "web:latest" "/srv/web/compose.yml" "webproj" "" true false 60 300 3.
Definition cfg0 : Config := mkConfig "https://localhost:5000/" [svcApi; svcWeb].

Definition metrics0 : Metrics := mkMetrics ∅ ∅ ∅ ∅ ∅ ∅.
Definition st0 : St := mkSt ∅ ∅ ∅ ∅ ∅ ∅ metrics0 [] [] [].

Definition healthyInspect : ContainerInspect :=
  mkContainerInspect "c1" "/api" "sha256:img"
    (mkContainerState "running" true
       (Some (mkHealthState "healthy" 0 [mkHealthLog 0 "ok"]))).
Definition unhealthyInspect : ContainerInspect :=
  mkContainerInspect "c1" "/api" "sha256:img"
    (mkContainerState "running" true
       (Some (mkHealthState "unhealthy" 3 [mkHealthLog 1 "first"; mkHealthLog 1 "conn refused"]))).

(** An environment where everything succeeds and the local image has
    digest [sha256:aaa] while the registry serves [sha256:bbb]. *)
Definition envOk : Env :=
  mkEnv 1000
    (fun _ => RegHTTP 200 "sha256:bbb")
    (fun _ => inr (mkImageInspect "sha256:img" ["localhost:5000/myapp@sha256:aaa"%string] []))
    (fun _ => inr [mkContainer "c1" "localhost:5000/myapp:1.2"])
    (fun _ => inr healthyInspect)
    (fun _ _ _ => None) (fun _ _ => None) (fun _ _ => None) (fun _ _ => None).

Definition envUnhealthy : Env :=
  mkEnv 1010 (env_registry envOk) (env_inspectImage envOk) (env_listByProject envOk)
    (fun _ => inr unhealthyInspect)
    (fun _ _ _ => None) (fun _ _ => None) (fun _ _ => None) (fun _ _ => None).

Definition stDeployingDegraded : St :=
  mkSt {["api" := 1000]} ∅ ∅ ∅ {["api" := true]} ∅ metrics0 [] [] [].

Definition eventApiUnhealthy : Event :=
  mkEvent "container" "health_status: unhealthy" "c1" {["name" := "api"]}.

Definition stExhausted : St :=
  mkSt ∅ ∅ ∅ ∅ ∅ {["api" := 3]} metrics0 [] [] [].

Definition envPullFails : Env :=
  mkEnv 1000 (env_registry envOk) (env_inspectImage envOk) (env_listByProject envOk)
    (env_inspectContainer envOk) (fun _ _ _ => None)
    (fun _ _ => Some "pull access denied"%string) (fun _ _ => None) (fun _ _ => None).

Definition eventApiStart : Event :=
  mkEvent "container" "start" "c1" {["name" := "api"]}.

Definition stBlocked : St :=
  mkSt ∅ {["api" := "sha256:bbb"]} ∅ ∅ ∅ ∅ metrics0 [] [] [].

(** The registry serves [sha256:bbb] but no local image carries a digest
    for the configured registry and no container of the project runs. *)
Definition envNoLocal : Env :=
  mkEnv 1000 (env_registry envOk)
    (fun _ => inl "No such image"%string)
    (fun _ => inr [])
    (env_inspectContainer envOk)
    (fun _ _ _ => None) (fun _ _ => None) (fun _ _ => None) (fun _ _ => None).

(** A container restarted by [handleUnhealthy] at time 1010 ns with a
    300 s cooldown: its deadline is 1010 + 300 * 10^9 ns. *)
Definition stRestarted : St :=
  snd (handleUnhealthy envUnhealthy svcApi "api" "c1" st0).

(* ------------------------------------------------------------------ *)
(** ** Configuration defaults and validation (config.go) *)

(** [config.Config] with the fields [setDefaults] and [validate] touch:
    [Registry.URL], [Registry.PollInterval], [API.Port] and the services
    (the notification settings are left out: neither function reads them). *)
Record FileConfig := mkFileConfig {
  fc_RegistryURL : string;
  fc_PollInterval : Z;
  fc_APIPort : string;
  fc_Services : list Service;
}.

(** The loop body of [setDefaults] for one service. *)
Definition serviceDefaults (s : Service) : Service :=
  {| svc_Name := svc_Name s; svc_Image := svc_Image s; svc_ComposeFile := svc_ComposeFile s;
     svc_ComposeProject := svc_ComposeProject s; svc_ContainerName := svc_ContainerName s;
     svc_AutoUpdate := svc_AutoUpdate s; svc_AutoHeal := svc_AutoHeal s;
     svc_HealthGrace := if Z.leb (svc_HealthGrace s) 0 then 60 else svc_HealthGrace s;
     svc_HealCooldown := if Z.leb (svc_HealCooldown s) 0 then 300 else svc_HealCooldown s;
     svc_HealMaxRestarts := if Z.leb (svc_HealMaxRestarts s) 0 then 3 else svc_HealMaxRestarts s |}.

(** [Config.setDefaults] *)
Definition setDefaults (c : FileConfig) : FileConfig :=
  {| fc_RegistryURL := if String.eqb (fc_RegistryURL c) "" then "http://localhost:5000"
                       else fc_RegistryURL c;
     fc_PollInterval := if Z.leb (fc_PollInterval c) 0 then 300 else fc_PollInterval c;
     fc_APIPort := if String.eqb (fc_APIPort c) "" then "9090" else fc_APIPort c;
     fc_Services := map serviceDefaults (fc_Services c) |}.

(** The errors [validate] returns; each names the offending service by
    its index (the message also quotes [svc.Name], a function of the index). *)
Inductive ValidationError :=
| ErrNameRequired
| ErrImageRequired
| ErrComposeFileRequired
| ErrComposeProjectRequired
| ErrProjectOrContainerRequired.

(** The loop body of [validate] for one service. *)
Definition validateService (svc : Service) : option ValidationError :=
  if String.eqb (svc_Name svc) "" then Some ErrNameRequired else
  match (if svc_AutoUpdate svc then
           if String.eqb (svc_Image svc) "" then Some ErrImageRequired
           else if String.eqb (svc_ComposeFile svc) "" then Some ErrComposeFileRequired
           else if String.eqb (svc_ComposeProject svc) "" then Some ErrComposeProjectRequired
           else None
         else None) with
  | Some e => Some e
  | None =>
      if svc_AutoHeal svc && String.eqb (svc_ComposeProject svc) ""
         && String.eqb (svc_ContainerName svc) ""
      then Some ErrProjectOrContainerRequired
      else None
  end.

Fixpoint validateFrom (i : nat) (svcs : list Service) : option (nat * ValidationError) :=
  match svcs with
  | [] => None
  | svc :: rest =>
      match validateService svc with
      | Some e => Some (i, e)
      | None => validateFrom (S i) rest
      end
  end.

(** [Config.validate]: [None] is a nil error. *)
Definition validate (c : FileConfig) : option (nat * ValidationError) :=
  validateFrom 0 (fc_Services c).

(** What [validate] requires of one service, read as a predicate. *)
Definition serviceValid (svc : Service) : Prop :=
  svc_Name svc <> ""%string /\
  (svc_AutoUpdate svc = true ->
     svc_Image svc <> ""%string /\ svc_ComposeFile svc <> ""%string /\
     svc_ComposeProject svc <> ""%string) /\
  (svc_AutoHeal svc = true ->
     svc_ComposeProject svc <> ""%string \/ svc_ContainerName svc <> ""%string).

(** An auto-heal service with neither a compose project nor a container name. *)
Definition svcDb : Service :=
  mkService "db" "" "" "" "" false true 0 0 0.

(** A service that gives only its heal cooldown. *)
Definition svcCoolOnly : Service :=
  mkService "db" "" "" "" "" false true 0 120 0.

(* ------------------------------------------------------------------ *)
(** ** Relations between states used by the whole-process invariants *)

(** The four per-service Prometheus counters never go down. *)
Definition countersGrow (st st' : St) : Prop :=
  forall k,
    lookupZ (m_updates (metrics st)) k <= lookupZ (m_updates (metrics st')) k /\
    lookupZ (m_rollbacks (metrics st)) k <= lookupZ (m_rollbacks (metrics st')) k /\
    lookupZ (m_restarts (metrics st)) k <= lookupZ (m_restarts (metrics st')) k /\
    lookupZ (m_failures (metrics st)) k <= lookupZ (m_failures (metrics st')) k.

(** Same deploy markers. *)
Definition sameDeploying (st st' : St) : Prop := deploying st' = deploying st.

(** Only new alerts: the alert list is extended, never rewritten. *)
Definition alertsExtend (st st' : St) : Prop := exists l, alerts st' = alerts st ++ l.

(** The first configured service with a given name (the search of
    [handleTriggerService]). *)
Fixpoint findByName (name : string) (svcs : list Service) : option Service :=
  match svcs with
  | [] => None
  | svc :: rest => if String.eqb (svc_Name svc) name then Some svc else findByName name rest
  end.

Definition envRestartFails : Env :=
  {| env_now := env_now envUnhealthy; env_registry := env_registry envUnhealthy;
     env_inspectImage := env_inspectImage envUnhealthy;
     env_listByProject := env_listByProject envUnhealthy;
     env_inspectContainer := env_inspectContainer envUnhealthy;
     env_tagImage := env_tagImage envUnhealthy; env_composePull := env_composePull envUnhealthy;
     env_composeUp := env_composeUp envUnhealthy;
     env_restart := fun _ _ => Some "restart failed"%string |}.

Example registryHost_ex : registryHost "https://localhost:5000/" = "localhost:5000".
Proof. reflexivity. Qed.
Example imageName_ex : imageName "myapp:1.2" = "myapp" /\ imageTag "myapp:1.2" = "1.2"
                       /\ imageTag "myapp" = "latest".
Proof. repeat split; reflexivity. Qed.
Example prefix_ex : registryPrefixOf cfg0 svcApi = "localhost:5000/myapp".
Proof. reflexivity. Qed.
Example localDigest_ex : resolveLocalDigest envOk svcApi "localhost:5000/myapp" = "sha256:aaa".
Proof. reflexivity. Qed.
Example lastHealth_ex : LastHealthOutput unhealthyInspect = "conn refused".
Proof. reflexivity. Qed.
Example remote_ex : RemoteDigest "myapp:1.2" (RegHTTP 404 "") =
                    inl "image myapp:1.2 not found in registry"%string.
Proof. reflexivity. Qed.

(** A poll with a new remote digest starts a deploy: the flag is set,
    the old image is tagged, pull and up are issued, verification spawned. *)
Example checkAndUpdate_deploys :
  let '(err, st) := checkAndUpdate cfg0 envOk svcApi st0 in
  err = None /\ IsDeploying st "api" = true /\
  calls st = [CTagImage "localhost:5000/myapp:1.2" "localhost:5000/myapp" "rollback";
              CComposePull "/srv/api/compose.yml" "apiproj";
              CComposeUp "/srv/api/compose.yml" "apiproj"]%string /\
  tasks st = [TVerifyAfterDeploy svcApi "sha256:aaa" "sha256:bbb"
                "localhost:5000/myapp:1.2" "localhost:5000/myapp"].
Proof. vm_compute. repeat split. Qed.

(** Verification sees [unhealthy]: the digest is blocked and a warning
    [rolled_back] alert is emitted. *)
Example verify_unhealthy_ex :
  let st := snd (verifyAfterDeploy 1000 [envUnhealthy] svcApi "sha256:aaa" "sha256:bbb"
                   "localhost:5000/myapp:1.2" "localhost:5000/myapp" st0) in
  blocked st !! "api" = Some "sha256:bbb" /\ IsDeploying st "api" = false /\
  map al_Event (alerts st) = ["rolled_back"] /\ map al_Level (alerts st) = [LevelWarning] /\
  map al_Reason (alerts st) = ["conn refused"].
Proof. vm_compute. repeat split. Qed.

(* ------------------------------------------------------------------ *)
(** ** Basic equations of the model *)

Lemma String_eqb_neq (a b : string) : a <> b -> String.eqb a b = false.
Proof. intros H. apply String.eqb_neq. exact H. Qed.

Lemma IsDeploying_false (st : St) (s : string) :
  IsDeploying st s = false -> deploying st !! s = None.
Proof.
  unfold IsDeploying. intros H. apply bool_decide_eq_false in H.
  destruct (deploying st !! s); [exfalso; apply H; eexists; reflexivity | reflexivity].
Qed.

(** [rollback] runs its metric updates, then blocks, then restores. *)
Lemma rollback_split (env : Env) (svc : Service) (o n f p r : string) (st : St) :
  rollback env svc o n f p r st =
  rollbackRestore env svc o n p r
    (snd (blockDigest svc n (snd ((IncRollbacks (svc_Name svc) ;; SetHealthy (svc_Name svc) false) st)))).
Proof. reflexivity. Qed.

Lemma blockDigest_effect (svc : Service) (n : string) (st : St) :
  blocked (snd (blockDigest svc n st)) = <[svc_Name svc := n]> (blocked st) /\
  alerts (snd (blockDigest svc n st)) = alerts st.
Proof. split; reflexivity. Qed.

(** The restore phase leaves [blocked] alone and emits exactly one
    [rolled_back] alert carrying the reason. *)
Lemma rollbackRestore_effect (env : Env) (svc : Service) (o n p r : string) (st : St) :
  blocked (snd (rollbackRestore env svc o n p r st)) = blocked st /\
  exists a, alerts (snd (rollbackRestore env svc o n p r st)) = alerts st ++ [a] /\
            al_Event a = "rolled_back" /\ al_Reason a = r.
Proof.
  unfold rollbackRestore, bind, issue, modify, send, IncFailures, cleanupRollback; cbn.
  destruct (env_tagImage env _ _ _); cbn.
  - split; [reflexivity|]. eexists; split; [reflexivity|split; reflexivity].
  - destruct (env_composeUp env _ _); cbn.
    + split; [reflexivity|]. eexists; split; [reflexivity|split; reflexivity].
    + split; [reflexivity|]. eexists; split; [reflexivity|split; reflexivity].
Qed.

(* ------------------------------------------------------------------ *)
(** ** Healthy events during a deploy *)

(** Claim C1 (code defect): [handleHealthy] never consults
    [IsDeploying]; for a degraded service that is in the middle of a
    deploy, a healthy event still runs the recovery branch and emits
    the info [healthy] alert (its siblings [handleUnhealthy] and
    [handleDied] do return early while deploying). *)
Theorem handleHealthy_recovers_while_deploying (svc : Service) (cn : string) (st : St) :
  IsDeploying st (svc_Name svc) = true ->
  isDegraded st (svc_Name svc) = true ->
  alerts (snd (handleHealthy svc cn st)) =
    alerts st ++ [mkAlert (svc_Name svc) "healthy" "Container recovered and is healthy."
                          "" "" "" cn LevelInfo] /\
  degraded (snd (handleHealthy svc cn st)) = delete (svc_Name svc) (degraded st) /\
  m_serviceHealthy (metrics (snd (handleHealthy svc cn st))) =
    <[svc_Name svc := true]> (m_serviceHealthy (metrics st)).
Proof.
  intros _ Hdeg. unfold handleHealthy, bind, gets, ret. cbn.
  rewrite Hdeg. rewrite andb_false_r. cbn. repeat split.
Qed.


Lemma handleHealthy_recovers_while_deploying_witness :
  IsDeploying stDeployingDegraded "api" = true /\
  isDegraded stDeployingDegraded "api" = true /\
  alerts (snd (handleHealthy svcApi "api" stDeployingDegraded)) =
    [mkAlert "api" "healthy" "Container recovered and is healthy." "" "" "" "api" LevelInfo].
Proof.
  split; [reflexivity|]. split; [reflexivity|].
  apply (proj1 (handleHealthy_recovers_while_deploying svcApi "api" stDeployingDegraded
                  eq_refl eq_refl)).
Defined.

(* ------------------------------------------------------------------ *)
(** ** The control API routes *)

(** Claim C2 (code defect): [NewAPI] registers no [/not-found] route, so
    [GET /not-found] falls through the mux to the 404 handler and the
    not-found suppression map ([NotFoundServices]) is never served. *)
Theorem get_not_found_is_404 (cfg : Config) (st : St) :
  serveAPI cfg (mkRequest MethodGet "/not-found") st =
    (httpError "404 page not found" 404, st).
Proof. reflexivity. Qed.

(* ------------------------------------------------------------------ *)
(** ** Verification after deploy: fail-fast on unhealthy *)

(** Claim C3: when a verification tick finds the container and its
    health status is [unhealthy], the tick rolls back at once, whatever
    the deadline, with the last health-check output as reason; the
    rollback first blocks the new digest and only afterwards emits its
    [rolled_back] alert. *)
Theorem verify_unhealthy_rolls_back (env : Env) (svc : Service) (o n f p : string)
  (deadline : Z) (st : St) (cid : string) (info : ContainerInspect) (h : HealthState) :
  findContainerByProject env (svc_ComposeProject svc) = cid ->
  cid <> ""%string ->
  env_inspectContainer env cid = inr info ->
  cs_Health (ci_State info) = Some h ->
  hs_Status h = "unhealthy" ->
  verifyTick env svc o n f p deadline st =
    (true, snd (rollback env svc o n f p (LastHealthOutput info) st)) /\
  exists st1,
    snd (rollback env svc o n f p (LastHealthOutput info) st) =
      snd (rollbackRestore env svc o n p (LastHealthOutput info) st1) /\
    blocked st1 !! svc_Name svc = Some n /\
    alerts st1 = alerts st /\
    blocked (snd (rollbackRestore env svc o n p (LastHealthOutput info) st1)) = blocked st1 /\
    exists a,
      alerts (snd (rollbackRestore env svc o n p (LastHealthOutput info) st1)) = alerts st1 ++ [a] /\
      al_Event a = "rolled_back" /\ al_Reason a = LastHealthOutput info.
Proof.
  intros Hfind Hcid Hins Hh Hst. split.
  - unfold verifyTick. rewrite Hfind, (String_eqb_neq _ _ Hcid), Hins, Hh, Hst.
    cbn -[rollback]. unfold bind at 1. destruct (rollback env svc o n f p (LastHealthOutput info) st). reflexivity.
  - exists (snd (blockDigest svc n (snd ((IncRollbacks (svc_Name svc) ;;
                                           SetHealthy (svc_Name svc) false) st)))).
    rewrite rollback_split. split; [reflexivity|].
    destruct (blockDigest_effect svc n (snd ((IncRollbacks (svc_Name svc) ;;
                                              SetHealthy (svc_Name svc) false) st)))
      as [Hb Ha].
    split; [rewrite Hb; apply lookup_insert_eq|].
    split; [rewrite Ha; reflexivity|].
    apply rollbackRestore_effect.
Qed.

Lemma verify_unhealthy_rolls_back_witness :
  findContainerByProject envUnhealthy "apiproj" = "c1" /\
  env_inspectContainer envUnhealthy "c1" = inr unhealthyInspect /\
  verifyTick envUnhealthy svcApi "sha256:aaa" "sha256:bbb" "localhost:5000/myapp:1.2"
    "localhost:5000/myapp" 5000 st0 =
    (true, snd (rollback envUnhealthy svcApi "sha256:aaa" "sha256:bbb" "localhost:5000/myapp:1.2"
                 "localhost:5000/myapp" "conn refused" st0)).
Proof.
  split; [reflexivity|]. split; [reflexivity|].
  exact (proj1 (verify_unhealthy_rolls_back envUnhealthy svcApi "sha256:aaa" "sha256:bbb"
    "localhost:5000/myapp:1.2" "localhost:5000/myapp" 5000 st0 "c1" unhealthyInspect
    (mkHealthState "unhealthy" 3 [mkHealthLog 1 "first"; mkHealthLog 1 "conn refused"])
    eq_refl ltac:(discriminate) eq_refl eq_refl eq_refl)).
Defined.

(* ------------------------------------------------------------------ *)
(** ** The restart budget *)

Lemma verifyAfterRestart_calls (oenv : option Env) (svc : Service) (cn cid r : string) (st : St) :
  calls (snd (verifyAfterRestart oenv svc cn cid r st)) = calls st.
Proof.
  unfold verifyAfterRestart. destruct oenv as [env|]; [|reflexivity].
  destruct (env_inspectContainer env cid) as [|info]; [reflexivity|].
  destruct (match cs_Health (ci_State info) with
            | Some h => String.eqb (hs_Status h) "unhealthy" | None => false end).
  - unfold bind, gets, modify, IncFailures, send. cbn.
    destruct (Z.geb _ _); reflexivity.
  - reflexivity.
Qed.

(** Claim C5: once [restartCounts[service]] has reached
    [healMaxRestarts], no event makes the Healer issue
    [RestartContainer] (nor touch the cooldowns); the unhealthy handler
    of an auto-heal service returns right after marking the service
    unhealthy and degraded, before the cooldown check; and the
    verify-after-restart task never restarts anything. *)
Theorem no_restart_at_max_restarts (cfg : Config) (env : Env) (e : Event) (svc : Service)
  (st : St) :
  findServiceByEvent cfg e = Some svc ->
  svc_HealMaxRestarts svc <= lookupZ (restartCounts st) (svc_Name svc) ->
  calls (snd (handleEvent cfg env e st)) = calls st /\
  cooldowns (snd (handleEvent cfg env e st)) = cooldowns st /\
  (svc_AutoHeal svc = true -> IsDeploying st (svc_Name svc) = false ->
   handleUnhealthy env svc (EventContainerName e) (ev_ActorID e) st =
     (tt, snd ((SetHealthy (svc_Name svc) false ;; setDegraded (svc_Name svc) true) st))) /\
  (forall oenv cn cid r, calls (snd (verifyAfterRestart oenv svc cn cid r st)) = calls st).
Proof.
  intros Hfind Hmax.
  assert (Hge : Z.geb (lookupZ (restartCounts st) (svc_Name svc)) (svc_HealMaxRestarts svc) = true)
    by (apply Z.geb_le; exact Hmax).
  assert (Hun : calls (snd (handleUnhealthy env svc (EventContainerName e) (ev_ActorID e) st))
                = calls st /\
                cooldowns (snd (handleUnhealthy env svc (EventContainerName e) (ev_ActorID e) st))
                = cooldowns st /\
                (svc_AutoHeal svc = true -> IsDeploying st (svc_Name svc) = false ->
                 handleUnhealthy env svc (EventContainerName e) (ev_ActorID e) st =
                 (tt, snd ((SetHealthy (svc_Name svc) false ;; setDegraded (svc_Name svc) true) st)))).
  { unfold handleUnhealthy, bind, gets, ret.
    destruct (IsDeploying st (svc_Name svc)) eqn:Hdep.
    - split; [reflexivity|]. split; [reflexivity|]. intros _ Hf. discriminate Hf.
    - cbn. destruct (svc_AutoHeal svc) eqn:Hah; cbn.
      + rewrite Hge. cbn. split; [reflexivity|]. split; [reflexivity|]. intros _ _. reflexivity.
      + split; [reflexivity|]. split; [reflexivity|]. intros Hf. discriminate Hf. }
  destruct Hun as [Hc [Hcd Hshape]].
  split; [|split; [|split; [exact Hshape | intros; apply verifyAfterRestart_calls]]].
  - unfold handleEvent. rewrite Hfind.
    destruct (hasPrefix (ev_Action e) "health_status: unhealthy"); [exact Hc|].
    destruct (hasPrefix (ev_Action e) "health_status: healthy").
    + unfold handleHealthy, bind, gets, ret.
      destruct (negb _ && negb _); reflexivity.
    + destruct (String.eqb (ev_Action e) "die"); [|reflexivity].
      unfold handleDied, bind, gets, ret. destruct (IsDeploying st (svc_Name svc)); reflexivity.
  - unfold handleEvent. rewrite Hfind.
    destruct (hasPrefix (ev_Action e) "health_status: unhealthy"); [exact Hcd|].
    destruct (hasPrefix (ev_Action e) "health_status: healthy").
    + unfold handleHealthy, bind, gets, ret.
      destruct (negb _ && negb _); reflexivity.
    + destruct (String.eqb (ev_Action e) "die"); [|reflexivity].
      unfold handleDied, bind, gets, ret. destruct (IsDeploying st (svc_Name svc)); reflexivity.
Qed.


Lemma no_restart_at_max_restarts_witness :
  findServiceByEvent cfg0 eventApiUnhealthy = Some svcApi /\
  svc_HealMaxRestarts svcApi <= lookupZ (restartCounts stExhausted) "api" /\
  calls (snd (handleEvent cfg0 envUnhealthy eventApiUnhealthy stExhausted)) = [].
Proof.
  split; [reflexivity|]. split; [vm_compute; discriminate|].
  exact (proj1 (no_restart_at_max_restarts cfg0 envUnhealthy eventApiUnhealthy svcApi stExhausted
                  eq_refl ltac:(vm_compute; discriminate))).
Defined.

Example restart_below_max :
  calls (snd (handleEvent cfg0 envUnhealthy eventApiUnhealthy st0)) = [CRestartContainer "c1" 10] /\
  cooldowns (snd (handleEvent cfg0 envUnhealthy eventApiUnhealthy st0)) =
    {["api" := 300000001010]}.
Proof. split; reflexivity. Qed.

(* ------------------------------------------------------------------ *)
(** ** Deploy-pipeline failures *)

(** Claim C6: when [compose pull] fails, or [compose pull] succeeds and
    [compose up] fails, a deploy that did start returns an error, leaves
    [deploying] as it was before (the entry for the service is gone),
    spawns no verification and so performs no rollback: [blocked],
    [notFound], the metrics and the alerts are unchanged. *)
Theorem deploy_pipeline_failure (cfg : Config) (env : Env) (svc : Service) (o n : string)
  (st : St) :
  IsDeploying st (svc_Name svc) = false ->
  (env_composePull env (svc_ComposeFile svc) (svc_ComposeProject svc) <> None \/
   (env_composePull env (svc_ComposeFile svc) (svc_ComposeProject svc) = None /\
    env_composeUp env (svc_ComposeFile svc) (svc_ComposeProject svc) <> None)) ->
  fst (deploy cfg env svc o n st) <> None /\
  deploying (snd (deploy cfg env svc o n st)) = deploying st /\
  deploying (snd (deploy cfg env svc o n st)) !! svc_Name svc = None /\
  blocked (snd (deploy cfg env svc o n st)) = blocked st /\
  notFound (snd (deploy cfg env svc o n st)) = notFound st /\
  metrics (snd (deploy cfg env svc o n st)) = metrics st /\
  alerts (snd (deploy cfg env svc o n st)) = alerts st /\
  tasks (snd (deploy cfg env svc o n st)) = tasks st.
Proof.
  intros Hdep Hfail.
  pose proof (IsDeploying_false st (svc_Name svc) Hdep) as Hnone.
  assert (Hdel : delete (svc_Name svc) (<[svc_Name svc := env_now env]> (deploying st))
                 = deploying st) by (apply delete_insert_id; exact Hnone).
  unfold deploy, tryStartDeploy, bind, gets, ret. rewrite Hdep.
  cbn -[registryPrefixOf imageTag String.append].
  destruct (negb (String.eqb o "")); cbn -[registryPrefixOf imageTag String.append];
  (destruct (env_composePull env (svc_ComposeFile svc) (svc_ComposeProject svc)) as [e1|] eqn:Hp;
   cbn -[registryPrefixOf imageTag String.append];
   [ rewrite Hdel; split; [discriminate|]; split; [reflexivity|]; split; [exact Hnone|];
     repeat split
   | destruct Hfail as [Hf | [_ Hf]]; [exfalso; apply Hf; reflexivity|];
     destruct (env_composeUp env (svc_ComposeFile svc) (svc_ComposeProject svc)) as [e2|] eqn:Hu;
     [ cbn -[registryPrefixOf imageTag String.append]; rewrite Hdel;
       split; [discriminate|]; split; [reflexivity|]; split; [exact Hnone|]; repeat split
     | exfalso; apply Hf; reflexivity ] ]).
Qed.


Lemma deploy_pipeline_failure_witness :
  IsDeploying st0 "api" = false /\
  fst (deploy cfg0 envPullFails svcApi "sha256:aaa" "sha256:bbb" st0) <> None.
Proof.
  split; [reflexivity|].
  refine (proj1 (deploy_pipeline_failure cfg0 envPullFails svcApi "sha256:aaa" "sha256:bbb" st0
                  _ (or_introl _))); [reflexivity | discriminate].
Defined.

(* ------------------------------------------------------------------ *)
(** ** Method checks of the control API *)


(** Mux dispatch of the documented paths. *)
Lemma route_trigger :
  bestRoute "/trigger" routes = Some ("/trigger", HTriggerAll)%string.
Proof. cbv. reflexivity. Qed.
Lemma route_trigger_sub (rest : string) :
  bestRoute ("/trigger/" ++ rest) routes = Some ("/trigger/", HTriggerService)%string.
Proof. cbv. reflexivity. Qed.
Lemma route_blocked :
  bestRoute "/blocked" routes = Some ("/blocked", HListBlocked)%string.
Proof. cbv. reflexivity. Qed.
Lemma route_blocked_sub (rest : string) :
  bestRoute ("/blocked/" ++ rest) routes = Some ("/blocked/", HUnblockService)%string.
Proof. cbv. reflexivity. Qed.
Lemma route_health :
  bestRoute "/health" routes = Some ("/health", HHealth)%string.
Proof. cbv. reflexivity. Qed.
Lemma route_metrics :
  bestRoute "/metrics" routes = Some ("/metrics", HMetrics)%string.
Proof. cbv. reflexivity. Qed.

(** Claim C8: the four command endpoints answer 405 to any method other
    than their own ([POST /trigger], [POST /trigger/<name>],
    [GET /blocked], [DELETE /blocked/<name>]; a sub-path is taken as
    given, already in the clean form the mux does not redirect), but
    [/health] and [/metrics], documented as [GET], never look at the
    method: every request to them, [POST /health] or [DELETE /metrics]
    among them, is answered 200, not 405. *)
Theorem api_method_checks (cfg : Config) (st : St) (meth rest : string) :
  (meth <> MethodPost ->
   resp_Status (fst (serveAPI cfg (mkRequest meth "/trigger") st)) = 405) /\
  (meth <> MethodPost ->
   cleanPath ("/trigger/" ++ rest) = ("/trigger/" ++ rest)%string ->
   resp_Status (fst (serveAPI cfg (mkRequest meth ("/trigger/" ++ rest)) st)) = 405) /\
  (meth <> MethodGet ->
   resp_Status (fst (serveAPI cfg (mkRequest meth "/blocked") st)) = 405) /\
  (meth <> MethodDelete ->
   cleanPath ("/blocked/" ++ rest) = ("/blocked/" ++ rest)%string ->
   resp_Status (fst (serveAPI cfg (mkRequest meth ("/blocked/" ++ rest)) st)) = 405) /\
  resp_Status (fst (serveAPI cfg (mkRequest meth "/health") st)) = 200 /\
  resp_Status (fst (serveAPI cfg (mkRequest meth "/metrics") st)) = 200.
Proof.
  unfold serveAPI; cbn [req_Path req_Method].
  rewrite route_trigger, route_trigger_sub, route_blocked, route_blocked_sub, route_health,
    route_metrics.
  repeat split; try intros Hm; try intros Hc; try rewrite Hc; rewrite ?String.eqb_refl;
    rewrite ?andb_false_r;
    unfold runHandler, handleTriggerAll, handleTriggerService, handleListBlocked,
      handleUnblockService, handleHealth, handleMetrics, bind, gets, ret;
    cbn [req_Method]; try (rewrite (String_eqb_neq _ _ Hm)); reflexivity.
Qed.

Lemma api_method_checks_witness :
  cleanPath "/trigger/api" = "/trigger/api"%string /\
  resp_Status (fst (serveAPI cfg0 (mkRequest MethodGet "/trigger/api") st0)) = 405 /\
  resp_Status (fst (serveAPI cfg0 (mkRequest MethodPost "/health") st0)) = 200 /\
  resp_Status (fst (serveAPI cfg0 (mkRequest MethodDelete "/metrics") st0)) = 200.
Proof.
  assert (Hc : cleanPath ("/trigger/" ++ "api") = ("/trigger/" ++ "api")%string)
    by reflexivity.
  assert (Hg : MethodGet <> MethodPost) by discriminate.
  split; [exact Hc|].
  split; [exact (proj1 (proj2 (api_method_checks cfg0 st0 MethodGet "api")) Hg Hc)|].
  split.
  - exact (proj1 (proj2 (proj2 (proj2 (proj2 (api_method_checks cfg0 st0 MethodPost "")))))).
  - exact (proj2 (proj2 (proj2 (proj2 (proj2 (api_method_checks cfg0 st0 MethodDelete "")))))).
Defined.

(* ------------------------------------------------------------------ *)
(** ** Events the Healer ignores *)

(** Claim C10: the stream subscribes to [start] events, yet
    [handleEvent] does nothing with them: an event that matches no
    service, or whose action is neither prefixed by
    ["health_status: unhealthy"] or ["health_status: healthy"] nor equal
    to ["die"] (every [start] event among them), leaves the whole state
    unchanged (no map, metric, call, task or alert). *)
Theorem handleEvent_ignores (cfg : Config) :
  In "start"%string streamFilterEvents /\
  (forall env e st, ev_Action e = "start" -> handleEvent cfg env e st = (tt, st)) /\
  (forall env e st,
     findServiceByEvent cfg e = None \/
     (hasPrefix (ev_Action e) "health_status: unhealthy" = false /\
      hasPrefix (ev_Action e) "health_status: healthy" = false /\
      ev_Action e <> "die") ->
     handleEvent cfg env e st = (tt, st)).
Proof.
  assert (Hgen : forall env e st,
     findServiceByEvent cfg e = None \/
     (hasPrefix (ev_Action e) "health_status: unhealthy" = false /\
      hasPrefix (ev_Action e) "health_status: healthy" = false /\
      ev_Action e <> "die") ->
     handleEvent cfg env e st = (tt, st)).
  { intros env e st [Hnone | [Hu [Hh Hd]]]; unfold handleEvent.
    - rewrite Hnone. reflexivity.
    - destruct (findServiceByEvent cfg e); [|reflexivity].
      rewrite Hu, Hh, (String_eqb_neq _ _ Hd). reflexivity. }
  split; [cbn; right; right; left; reflexivity|].
  split; [|exact Hgen].
  intros env e st Hs. apply Hgen. right.
  rewrite Hs. split; [reflexivity|]. split; [reflexivity|]. discriminate.
Qed.


Lemma handleEvent_ignores_witness :
  ev_Action eventApiStart = "start" /\
  handleEvent cfg0 envOk eventApiStart stDeployingDegraded = (tt, stDeployingDegraded).
Proof.
  split; [reflexivity|].
  refine (proj1 (proj2 (handleEvent_ignores cfg0)) envOk eventApiStart stDeployingDegraded _).
  reflexivity.
Defined.

(* ------------------------------------------------------------------ *)
(** ** Preservation along computations *)

Section Respects.

Variable R : St -> St -> Prop.
Hypothesis R_refl : forall st, R st st.
Hypothesis R_trans : forall a b c, R a b -> R b c -> R a c.

Lemma respects_ret {A} (a : A) : respects R (ret a).
Proof. intros st. apply R_refl. Qed.

Lemma respects_gets {A} (f : St -> A) : respects R (gets f).
Proof. intros st. apply R_refl. Qed.

Lemma respects_modify (f : St -> St) : (forall st, R st (f st)) -> respects R (modify f).
Proof. intros H st. apply H. Qed.

Lemma respects_bind {A B} (m : M A) (k : A -> M B) :
  respects R m -> (forall a, respects R (k a)) -> respects R (bind m k).
Proof.
  intros Hm Hk st. unfold bind. specialize (Hm st).
  destruct (m st) as [a st'] eqn:E. cbn in Hm. eapply R_trans; [exact Hm | apply Hk].
Qed.

End Respects.

Ltac crawl_step R_refl R_trans :=
  match goal with
  | |- respects _ (bind _ _) => apply (respects_bind _ R_trans); [|intros ?]
  | |- respects _ (ret _) => apply (respects_ret _ R_refl)
  | |- respects _ (gets _) => apply (respects_gets _ R_refl)
  | |- respects _ (modify _) => apply respects_modify; intros ?st
  | |- respects _ (if ?b then _ else _) => destruct b eqn:?
  | |- respects _ (match ?x with _ => _ end) => destruct x eqn:?
  end.

Lemma cooldownsGrow_refl (st : St) : cooldownsGrow st st.
Proof. intros k H. exact H. Qed.
Lemma cooldownsGrow_trans (a b c : St) : cooldownsGrow a b -> cooldownsGrow b c -> cooldownsGrow a c.
Proof. intros H1 H2 k H. apply H2, H1, H. Qed.
Lemma wfPreserved_refl (st : St) : wfPreserved st st.
Proof. intros H. exact H. Qed.
Lemma wfPreserved_trans (a b c : St) : wfPreserved a b -> wfPreserved b c -> wfPreserved a c.
Proof. intros H1 H2 H. apply H2, H1, H. Qed.

Ltac unfold_ops :=
  unfold send, issue, spawn, IncUpdates, IncRollbacks, IncRestarts, IncFailures, SetHealthy,
    SetBlocked, clearDeploying, tryStartDeploy, cleanupRollback, blockDigest, rollbackRestore,
    rollback, onDeploySuccess, setDegraded, UnblockService.

Ltac cd_leaf :=
  unfold cooldownsGrow; cbn; intros ?k ?Hk;
  first [ exact Hk | apply lookup_insert_is_Some'; right; exact Hk ].

Ltac cd_crawl :=
  repeat (crawl_step cooldownsGrow_refl cooldownsGrow_trans || cd_leaf ||
          (progress unfold_ops) || (progress cbv zeta)).

Lemma verifyTick_cd (env : Env) (svc : Service) (o n f p : string) (dl : Z) :
  respects cooldownsGrow (verifyTick env svc o n f p dl).
Proof. unfold verifyTick; unfold_ops; cbv zeta; cd_crawl. Qed.

Lemma verifyAfterDeploy_cd (start : Z) (ticks : list Env) (svc : Service) (o n f p : string) :
  respects cooldownsGrow (verifyAfterDeploy start ticks svc o n f p).
Proof.
  unfold verifyAfterDeploy.
  apply (respects_bind _ cooldownsGrow_trans); [|intros _; cd_crawl].
  generalize (start + durationSeconds (svc_HealthGrace svc)) as dl. intros dl.
  induction ticks as [|env rest IH]; cbn [verifyLoop]; [cd_crawl|].
  apply (respects_bind _ cooldownsGrow_trans); [apply verifyTick_cd|].
  intros [|]; [cd_crawl | exact IH].
Qed.

Lemma checkAndUpdate_cd (cfg : Config) (env : Env) (svc : Service) :
  respects cooldownsGrow (checkAndUpdate cfg env svc).
Proof.
  unfold checkAndUpdate, checkNotFoundStage, checkResolveStage, deploy; cd_crawl.
Qed.

Lemma handleEvent_cd (cfg : Config) (env : Env) (e : Event) :
  respects cooldownsGrow (handleEvent cfg env e).
Proof.
  unfold handleEvent, handleUnhealthy, handleHealthy, handleDied; cd_crawl.
Qed.

Lemma verifyAfterRestart_cd (oenv : option Env) (svc : Service) (cn cid r : string) :
  respects cooldownsGrow (verifyAfterRestart oenv svc cn cid r).
Proof. unfold verifyAfterRestart; cd_crawl. Qed.

Lemma triggerLoop_cd (name : string) (svcs : list Service) :
  respects cooldownsGrow (triggerLoop name svcs).
Proof.
  induction svcs as [|svc rest IH]; cbn [triggerLoop];
    repeat (exact IH || crawl_step cooldownsGrow_refl cooldownsGrow_trans || cd_leaf ||
            (progress unfold_ops)).
Qed.

Lemma serveAPI_cd (cfg : Config) (r : Request) : respects cooldownsGrow (serveAPI cfg r).
Proof.
  unfold serveAPI. destruct (negb _ && negb _); [cd_crawl|].
  destruct (bestRoute (req_Path r) routes) as [[? h]|]; [|cd_crawl].
  destruct h; cbn [runHandler];
    unfold handleTriggerAll, handleTriggerService, handleListBlocked, handleUnblockService,
      handleHealth, handleMetrics;
    repeat (apply triggerLoop_cd || crawl_step cooldownsGrow_refl cooldownsGrow_trans ||
            cd_leaf || (progress unfold_ops) || (progress cbv zeta)).
Qed.

Lemma step_cd (cfg : Config) (st st' : St) : step cfg st st' -> cooldownsGrow st st'.
Proof.
  intros Hs. destruct Hs.
  - apply checkAndUpdate_cd.
  - apply verifyAfterDeploy_cd.
  - revert st. change (respects cooldownsGrow (UnblockService s)). unfold UnblockService; cd_crawl.
  - apply handleEvent_cd.
  - apply verifyAfterRestart_cd.
  - apply serveAPI_cd.
Qed.

Lemma steps_cd (cfg : Config) (st st' : St) : rtc (step cfg) st st' -> cooldownsGrow st st'.
Proof.
  induction 1 as [st|a b c Hab _ IH].
  - apply cooldownsGrow_refl.
  - eapply cooldownsGrow_trans; [apply (step_cd cfg); exact Hab | exact IH].
Qed.

Lemma RemoteDigest_nonempty (image : string) (resp : RegResp) (d : string) :
  RemoteDigest image resp = inr d -> d <> ""%string.
Proof.
  unfold RemoteDigest. destruct (parseRef image) as [name tag].
  destruct resp as [msg|status digest]; [discriminate|].
  destruct (Z.eqb status 404); [discriminate|].
  destruct (negb (Z.eqb status 200)); [discriminate|].
  destruct (String.eqb digest "") eqn:E; [discriminate|].
  intros H. injection H as <-. apply String.eqb_neq, E.
Qed.

Ltac wf_leaf :=
  try match goal with
      | H : RemoteDigest _ _ = inr ?d |- _ =>
          lazymatch goal with
          | _ : d <> ""%string |- _ => idtac
          | _ => pose proof (RemoteDigest_nonempty _ _ _ H)
          end
      end;
  unfold wfPreserved, digestsWF; cbn; intros (?Hb & ?Hn & ?Ht);
  split; [|split];
  repeat first
    [ assumption
    | apply map_Forall_insert_2
    | apply map_Forall_delete
    | apply Forall_app_2
    | apply Forall_cons; split
    | apply Forall_nil; exact I
    | exact I
    | progress cbn [taskWF] ].

Ltac wf_crawl :=
  repeat (crawl_step wfPreserved_refl wfPreserved_trans || solve [wf_leaf] ||
          (progress unfold_ops) || (progress cbv zeta)).

Lemma verifyTick_wf (env : Env) (svc : Service) (o n f p : string) (dl : Z) :
  n <> ""%string -> respects wfPreserved (verifyTick env svc o n f p dl).
Proof. intros Hn. unfold verifyTick; wf_crawl. Qed.

Lemma verifyAfterDeploy_wf (start : Z) (ticks : list Env) (svc : Service) (o n f p : string) :
  n <> ""%string -> respects wfPreserved (verifyAfterDeploy start ticks svc o n f p).
Proof.
  intros Hn. unfold verifyAfterDeploy.
  apply (respects_bind _ wfPreserved_trans); [|intros _; wf_crawl].
  generalize (start + durationSeconds (svc_HealthGrace svc)) as dl. intros dl.
  induction ticks as [|env rest IH]; cbn [verifyLoop]; [wf_crawl|].
  apply (respects_bind _ wfPreserved_trans); [apply verifyTick_wf, Hn|].
  intros [|]; [wf_crawl | exact IH].
Qed.

Lemma checkAndUpdate_wf (cfg : Config) (env : Env) (svc : Service) :
  respects wfPreserved (checkAndUpdate cfg env svc).
Proof.
  unfold checkAndUpdate, checkNotFoundStage, checkResolveStage, deploy; wf_crawl.
Qed.

Lemma handleEvent_wf (cfg : Config) (env : Env) (e : Event) :
  respects wfPreserved (handleEvent cfg env e).
Proof.
  unfold handleEvent, handleUnhealthy, handleHealthy, handleDied; wf_crawl.
Qed.

Lemma verifyAfterRestart_wf (oenv : option Env) (svc : Service) (cn cid r : string) :
  respects wfPreserved (verifyAfterRestart oenv svc cn cid r).
Proof. unfold verifyAfterRestart; wf_crawl. Qed.

Lemma triggerLoop_wf (name : string) (svcs : list Service) :
  respects wfPreserved (triggerLoop name svcs).
Proof.
  induction svcs as [|svc rest IH]; cbn [triggerLoop];
    repeat (exact IH || crawl_step wfPreserved_refl wfPreserved_trans || solve [wf_leaf] ||
            (progress unfold_ops)).
Qed.

Lemma serveAPI_wf (cfg : Config) (r : Request) : respects wfPreserved (serveAPI cfg r).
Proof.
  unfold serveAPI. destruct (negb _ && negb _); [wf_crawl|].
  destruct (bestRoute (req_Path r) routes) as [[? h]|]; [|wf_crawl].
  destruct h; cbn [runHandler];
    unfold handleTriggerAll, handleTriggerService, handleListBlocked, handleUnblockService,
      handleHealth, handleMetrics;
    repeat (apply triggerLoop_wf || crawl_step wfPreserved_refl wfPreserved_trans ||
            solve [wf_leaf] || (progress unfold_ops) || (progress cbv zeta)).
Qed.

Lemma step_wf (cfg : Config) (st st' : St) : step cfg st st' -> digestsWF st -> digestsWF st'.
Proof.
  intros Hs. destruct Hs.
  - apply checkAndUpdate_wf.
  - intros Hwf. apply verifyAfterDeploy_wf; [|exact Hwf].
    destruct Hwf as (_ & _ & Ht). rewrite List.Forall_forall in Ht. exact (Ht _ H).
  - revert st. change (respects wfPreserved (UnblockService s)). unfold UnblockService; wf_crawl.
  - apply handleEvent_wf.
  - apply verifyAfterRestart_wf.
  - apply serveAPI_wf.
Qed.

Lemma steps_wf (cfg : Config) (st st' : St) :
  rtc (step cfg) st st' -> digestsWF st -> digestsWF st'.
Proof.
  induction 1 as [st|a b c Hab _ IH]; [tauto|].
  intros H. apply IH, (step_wf cfg a b Hab H).
Qed.

Lemma checkAndUpdate_past_blocked (cfg : Config) (env : Env) (svc : Service) (st : St)
  (remote : string) :
  RemoteDigest (svc_Image svc) (env_registry env (svc_Image svc)) = inr remote ->
  lookupS (blocked st) (svc_Name svc) <> remote ->
  exists st1, checkAndUpdate cfg env svc st = checkNotFoundStage cfg env svc remote st1 /\
    notFound st1 = notFound st /\ alerts st1 = alerts st /\ calls st1 = calls st /\
    tasks st1 = tasks st /\ deploying st1 = deploying st.
Proof.
  intros Hrem Hb. unfold checkAndUpdate. rewrite Hrem. unfold bind, gets. cbv beta iota.
  destruct (String.eqb (lookupS (blocked st) (svc_Name svc)) "") eqn:E; cbn [negb].
  - eexists; split; [reflexivity|]. repeat split.
  - rewrite (String_eqb_neq _ _ Hb). eexists; split; [reflexivity|]. repeat split.
Qed.

(** Claim C4: once the remote digest is known, the [blocked] gate of
    [checkAndUpdate] either returns [nil] with the state untouched (the
    blocked digest is the remote one) or, when a different digest is
    blocked, deletes the entry and resets the blocked gauge before going
    on to the [notFound] check and the local/remote comparison.  In every
    reachable state a present [blocked] entry is non-empty, so "present"
    and "non-empty" coincide. *)
Theorem checkAndUpdate_blocked_gate (cfg : Config) (env : Env) (svc : Service)
  (stInit st : St) (remote : string) :
  digestsWF stInit -> rtc (step cfg) stInit st ->
  RemoteDigest (svc_Image svc) (env_registry env (svc_Image svc)) = inr remote ->
  (blocked st !! svc_Name svc = Some remote ->
     checkAndUpdate cfg env svc st = (None, st)) /\
  (forall d, blocked st !! svc_Name svc = Some d -> d <> remote ->
     let st1 := snd ((modify (set_blocked (fun b => delete (svc_Name svc) b)) ;;
                      SetBlocked (svc_Name svc) false) st) in
     checkAndUpdate cfg env svc st = checkNotFoundStage cfg env svc remote st1 /\
     blocked st1 = delete (svc_Name svc) (blocked st) /\
     m_serviceBlocked (metrics st1) = <[svc_Name svc := false]> (m_serviceBlocked (metrics st)) /\
     notFound st1 = notFound st /\ alerts st1 = alerts st /\ calls st1 = calls st /\
     tasks st1 = tasks st /\ deploying st1 = deploying st).
Proof.
  intros Hwf Hrtc Hrem.
  pose proof (steps_wf cfg _ _ Hrtc Hwf) as (HB & _ & _).
  pose proof (RemoteDigest_nonempty _ _ _ Hrem) as Hne.
  split.
  - intros Hb. unfold checkAndUpdate. rewrite Hrem. unfold bind, gets, lookupS.
    cbv beta iota. rewrite Hb. cbn [default id].
    rewrite (String_eqb_neq _ _ Hne), String.eqb_refl. reflexivity.
  - intros d Hb Hd st1. pose proof (HB _ _ Hb) as Hdne. cbv beta in Hdne.
    repeat split; try reflexivity.
    unfold checkAndUpdate. rewrite Hrem. unfold bind, gets, lookupS.
    cbv beta iota. rewrite Hb. cbn [default id].
    rewrite (String_eqb_neq _ _ Hdne), (String_eqb_neq _ _ Hd). reflexivity.
Qed.


Lemma checkAndUpdate_blocked_gate_witness :
  checkAndUpdate cfg0 envOk svcApi stBlocked = (None, stBlocked).
Proof.
  refine (proj1 (checkAndUpdate_blocked_gate cfg0 envOk svcApi stBlocked stBlocked "sha256:bbb"
                   _ _ _) _).
  - split; [|split]; cbn.
    + apply map_Forall_singleton. discriminate.
    + apply map_Forall_empty.
    + constructor.
  - apply rtc_refl.
  - reflexivity.
  - reflexivity.
Defined.

(** Claim C7: past the [blocked] gate, [checkAndUpdate] handles the
    [notFound] suppression map as follows.  (a) With no suppression for
    the current remote digest and both local-digest strategies failing,
    the call returns [nil], records [notFound[service] = remoteDigest]
    and appends exactly one alert, a warning with event [not_found];
    nothing is deployed (no call issued, no task spawned, no deploy
    marker).  (b) When [notFound[service]] is the remote digest, the call
    returns [nil] silently.  (c) When it holds another digest, the entry is
    deleted and processing continues with the local digest resolution. *)
Theorem checkAndUpdate_not_found (cfg : Config) (env : Env) (svc : Service)
  (stInit st : St) (remote : string) :
  digestsWF stInit -> rtc (step cfg) stInit st ->
  RemoteDigest (svc_Image svc) (env_registry env (svc_Image svc)) = inr remote ->
  lookupS (blocked st) (svc_Name svc) <> remote ->
  (lookupS (notFound st) (svc_Name svc) <> remote ->
   resolveLocalDigest env svc (registryPrefixOf cfg svc) = ""%string ->
   let '(res, st') := checkAndUpdate cfg env svc st in
   res = None /\
   notFound st' !! svc_Name svc = Some remote /\
   (exists a, alerts st' = alerts st ++ [a] /\
              al_Event a = "not_found"%string /\ al_Level a = LevelWarning) /\
   calls st' = calls st /\ tasks st' = tasks st /\ deploying st' = deploying st) /\
  (notFound st !! svc_Name svc = Some remote ->
   let '(res, st') := checkAndUpdate cfg env svc st in
   res = None /\ notFound st' = notFound st /\ alerts st' = alerts st /\
   calls st' = calls st /\ tasks st' = tasks st /\ deploying st' = deploying st) /\
  (forall d, notFound st !! svc_Name svc = Some d -> d <> remote ->
   exists st2, checkAndUpdate cfg env svc st = checkResolveStage cfg env svc remote st2 /\
     notFound st2 = delete (svc_Name svc) (notFound st) /\ alerts st2 = alerts st /\
     calls st2 = calls st /\ tasks st2 = tasks st /\ deploying st2 = deploying st).
Proof.
  intros Hwf Hrtc Hrem Hb.
  pose proof (steps_wf cfg _ _ Hrtc Hwf) as (_ & HN & _).
  pose proof (RemoteDigest_nonempty _ _ _ Hrem) as Hne.
  destruct (checkAndUpdate_past_blocked cfg env svc st remote Hrem Hb)
    as (st1 & Heq & Hnf & Hal & Hca & Hta & Hde).
  rewrite Heq. unfold checkNotFoundStage, bind, gets. cbv beta iota. rewrite Hnf.
  split; [|split].
  - intros Hn Hres.
    destruct (String.eqb (lookupS (notFound st) (svc_Name svc)) "") eqn:E; cbn [negb].
    + unfold checkResolveStage. cbv zeta. rewrite Hres. cbn.
      rewrite lookup_insert_eq. rewrite Hal, Hca, Hta, Hde.
      split; [reflexivity|]. split; [reflexivity|].
      split; [eexists; repeat split|]. repeat split.
    + rewrite (String_eqb_neq _ _ Hn).
      unfold checkResolveStage. cbv zeta. rewrite Hres. cbn.
      rewrite lookup_insert_eq. rewrite Hal, Hca, Hta, Hde.
      split; [reflexivity|]. split; [reflexivity|].
      split; [eexists; repeat split|]. repeat split.
  - intros Hn. unfold lookupS. rewrite Hn. cbn [default id].
    rewrite (String_eqb_neq _ _ Hne), String.eqb_refl. cbn.
    rewrite Hnf, Hal, Hca, Hta, Hde. repeat split.
  - intros d Hn Hd. pose proof (HN _ _ Hn) as Hdne. cbv beta in Hdne.
    unfold lookupS. rewrite Hn. cbn [default id].
    rewrite (String_eqb_neq _ _ Hdne), (String_eqb_neq _ _ Hd). cbn [negb].
    eexists; split; [reflexivity|]. cbn. rewrite Hnf, Hal, Hca, Hta, Hde. repeat split.
Qed.


Lemma checkAndUpdate_not_found_witness :
  let '(res, st') := checkAndUpdate cfg0 envNoLocal svcApi st0 in
  res = None /\
  notFound st' !! "api"%string = Some "sha256:bbb"%string /\
  (exists a, alerts st' = alerts st0 ++ [a] /\
             al_Event a = "not_found"%string /\ al_Level a = LevelWarning) /\
  calls st' = calls st0 /\ tasks st' = tasks st0 /\ deploying st' = deploying st0.
Proof.
  refine (proj1 (checkAndUpdate_not_found cfg0 envNoLocal svcApi st0 st0 "sha256:bbb"
                   _ _ _ _) _ _).
  - split; [|split]; cbn; [apply map_Forall_empty | apply map_Forall_empty | constructor].
  - apply rtc_refl.
  - reflexivity.
  - discriminate.
  - discriminate.
  - reflexivity.
Defined.

(** Claim C9: the healer never deletes a key of [cooldowns]: once a
    container has a cooldown entry (set by a successful auto-restart in
    [handleUnhealthy]), it keeps one in every later state of the whole
    process.  [handleHealthy] tests only the key's presence, so in each
    such state a healthy event for the container runs the recovery branch
    (healthy gauge set, degraded flag and restart counter cleared, info
    alert [healthy]) whatever the clock says, whereas [inCooldown]
    compares the current time with the stored deadline. *)
Theorem cooldown_key_persists_recovery (cfg : Config) (stInit st : St) (svc : Service)
  (cn : string) :
  is_Some (cooldowns stInit !! cn) ->
  rtc (step cfg) stInit st ->
  is_Some (cooldowns st !! cn) /\
  m_serviceHealthy (metrics (snd (handleHealthy svc cn st))) =
    <[svc_Name svc := true]> (m_serviceHealthy (metrics st)) /\
  degraded (snd (handleHealthy svc cn st)) = delete (svc_Name svc) (degraded st) /\
  restartCounts (snd (handleHealthy svc cn st)) = delete (svc_Name svc) (restartCounts st) /\
  alerts (snd (handleHealthy svc cn st)) =
    alerts st ++ [mkAlert (svc_Name svc) "healthy" "Container recovered and is healthy."
                          "" "" "" cn LevelInfo] /\
  (forall now dl, cooldowns st !! cn = Some dl -> inCooldown now st cn = Z.ltb now dl).
Proof.
  intros Hinit Hrtc.
  pose proof (steps_cd cfg _ _ Hrtc cn Hinit) as Hcd.
  split; [exact Hcd|].
  assert (Hc : bool_decide (is_Some (cooldowns st !! cn)) = true)
    by (apply bool_decide_eq_true; exact Hcd).
  unfold handleHealthy, bind, gets, ret. cbv beta iota. rewrite Hc. cbn [negb andb].
  split; [reflexivity|]. split; [reflexivity|]. split; [reflexivity|].
  split; [reflexivity|].
  intros now dl Hdl. unfold inCooldown. rewrite Hdl. reflexivity.
Qed.


Lemma cooldown_key_persists_recovery_witness :
  cooldowns stRestarted !! "api"%string = Some 300000001010 /\
  inCooldown 300000002000 stRestarted "api" = false /\
  alerts (snd (handleHealthy svcApi "api" stRestarted)) =
    alerts stRestarted ++ [mkAlert "api" "healthy" "Container recovered and is healthy."
                                   "" "" "" "api" LevelInfo].
Proof.
  split; [reflexivity|].
  refine (match cooldown_key_persists_recovery cfg0 stRestarted stRestarted svcApi "api"
                  _ (rtc_refl _ _) with
          | conj _ (conj _ (conj _ (conj _ (conj Ha Hin)))) => conj _ Ha
          end).
  - exists 300000001010. reflexivity.
  - rewrite (Hin 300000002000 300000001010); reflexivity.
Defined.

(* ------------------------------------------------------------------ *)
(** ** Configuration: defaults and validation *)

(** [setDefaults] gives every service positive grace, cooldown and
    restart limits, a non-empty registry URL and API port, and a positive
    poll interval, keeping the list of services and their names. *)
Theorem setDefaults_fills (c : FileConfig) :
  fc_RegistryURL (setDefaults c) <> ""%string /\
  0 < fc_PollInterval (setDefaults c) /\
  fc_APIPort (setDefaults c) <> ""%string /\
  Forall (fun s => 0 < svc_HealthGrace s /\ 0 < svc_HealCooldown s /\ 0 < svc_HealMaxRestarts s)
         (fc_Services (setDefaults c)) /\
  map svc_Name (fc_Services (setDefaults c)) = map svc_Name (fc_Services c).
Proof.
  cbn. split; [|split; [|split; [|split]]].
  - destruct (String.eqb (fc_RegistryURL c) "") eqn:E; [discriminate|].
    apply String.eqb_neq, E.
  - destruct (Z.leb (fc_PollInterval c) 0) eqn:E; [lia|]. apply Z.leb_gt, E.
  - destruct (String.eqb (fc_APIPort c) "") eqn:E; [discriminate|].
    apply String.eqb_neq, E.
  - apply List.Forall_forall. intros s Hs. apply in_map_iff in Hs as (s0 & <- & _). cbn.
    repeat split;
      [destruct (Z.leb (svc_HealthGrace s0) 0) eqn:E
      |destruct (Z.leb (svc_HealCooldown s0) 0) eqn:E
      |destruct (Z.leb (svc_HealMaxRestarts s0) 0) eqn:E];
      first [lia | apply Z.leb_gt, E].
  - rewrite map_map. reflexivity.
Qed.

(** [setDefaults] only replaces missing or non-positive settings: each
    setting already given is kept, whatever the other settings are (the
    services are rewritten one by one by the loop body, and within a
    service each of [health_grace], [heal_cooldown] and
    [heal_max_restarts] is kept on its own when positive, the other
    fields being copied), and applying it twice changes nothing. *)
Theorem setDefaults_keeps_given (c : FileConfig) :
  setDefaults (setDefaults c) = setDefaults c /\
  (fc_RegistryURL c <> ""%string -> fc_RegistryURL (setDefaults c) = fc_RegistryURL c) /\
  (0 < fc_PollInterval c -> fc_PollInterval (setDefaults c) = fc_PollInterval c) /\
  (fc_APIPort c <> ""%string -> fc_APIPort (setDefaults c) = fc_APIPort c) /\
  fc_Services (setDefaults c) = map serviceDefaults (fc_Services c) /\
  (forall s, 0 < svc_HealthGrace s -> svc_HealthGrace (serviceDefaults s) = svc_HealthGrace s) /\
  (forall s, 0 < svc_HealCooldown s -> svc_HealCooldown (serviceDefaults s) = svc_HealCooldown s) /\
  (forall s, 0 < svc_HealMaxRestarts s ->
             svc_HealMaxRestarts (serviceDefaults s) = svc_HealMaxRestarts s) /\
  (forall s, svc_Name (serviceDefaults s) = svc_Name s /\
             svc_Image (serviceDefaults s) = svc_Image s /\
             svc_ComposeFile (serviceDefaults s) = svc_ComposeFile s /\
             svc_ComposeProject (serviceDefaults s) = svc_ComposeProject s /\
             svc_ContainerName (serviceDefaults s) = svc_ContainerName s /\
             svc_AutoUpdate (serviceDefaults s) = svc_AutoUpdate s /\
             svc_AutoHeal (serviceDefaults s) = svc_AutoHeal s).
Proof.
  assert (Hs : forall s, 0 < svc_HealthGrace s -> 0 < svc_HealCooldown s ->
                         0 < svc_HealMaxRestarts s -> serviceDefaults s = s).
  { intros [] H1 H2 H3; cbn in *. unfold serviceDefaults; cbn.
    rewrite (proj2 (Z.leb_gt _ _) H1), (proj2 (Z.leb_gt _ _) H2), (proj2 (Z.leb_gt _ _) H3).
    reflexivity. }
  assert (Hidem : forall s, serviceDefaults (serviceDefaults s) = serviceDefaults s).
  { intros s. destruct (setDefaults_fills (mkFileConfig "" 0 "" [s])) as (_ & _ & _ & HF & _).
    inversion HF as [|? ? (H1 & H2 & H3) _]; subst. apply Hs; assumption. }
  split; [|split; [|split; [|split; [|split; [|split; [|split; [|split]]]]]]].
  - destruct c as [u p a svcs]. unfold setDefaults; cbn. f_equal.
    + destruct (String.eqb u "") eqn:E; [reflexivity|]. rewrite E. reflexivity.
    + destruct (Z.leb p 0) eqn:E; [reflexivity|]. rewrite E. reflexivity.
    + destruct (String.eqb a "") eqn:E; [reflexivity|]. rewrite E. reflexivity.
    + rewrite map_map. apply map_ext. exact Hidem.
  - intros H. cbn. rewrite (String_eqb_neq _ _ H). reflexivity.
  - intros H. cbn. rewrite (proj2 (Z.leb_gt _ _) H). reflexivity.
  - intros H. cbn. rewrite (String_eqb_neq _ _ H). reflexivity.
  - reflexivity.
  - intros s H. cbn. rewrite (proj2 (Z.leb_gt _ _) H). reflexivity.
  - intros s H. cbn. rewrite (proj2 (Z.leb_gt _ _) H). reflexivity.
  - intros s H. cbn. rewrite (proj2 (Z.leb_gt _ _) H). reflexivity.
  - intros s. repeat split.
Qed.

Lemma setDefaults_keeps_given_witness :
  fc_RegistryURL (mkFileConfig "http://reg:5000" 0 "" [svcCoolOnly]) <> ""%string /\
  0 < svc_HealCooldown svcCoolOnly /\
  fc_RegistryURL (setDefaults (mkFileConfig "http://reg:5000" 0 "" [svcCoolOnly])) = "http://reg:5000"%string /\
  svc_HealCooldown (serviceDefaults svcCoolOnly) = svc_HealCooldown svcCoolOnly.
Proof.
  destruct (setDefaults_keeps_given (mkFileConfig "http://reg:5000" 0 "" [svcCoolOnly]))
    as (_ & Hurl & _ & _ & _ & _ & Hcool & _).
  assert (Hu : fc_RegistryURL (mkFileConfig "http://reg:5000" 0 "" [svcCoolOnly]) <> ""%string)
    by discriminate.
  assert (Hc : 0 < svc_HealCooldown svcCoolOnly) by (apply Z.ltb_lt; reflexivity).
  split; [exact Hu|]. split; [exact Hc|]. split; [exact (Hurl Hu)|].
  exact (Hcool svcCoolOnly Hc).
Defined.

Lemma validateService_None (svc : Service) : validateService svc = None <-> serviceValid svc.
Proof.
  destruct svc as [n i f p cn au ah g c r]. unfold validateService, serviceValid; cbn.
  (destruct (String.eqb n "") eqn:En;
    [apply String.eqb_eq in En | apply String.eqb_neq in En]);
  (destruct (String.eqb i "") eqn:Ei;
    [apply String.eqb_eq in Ei | apply String.eqb_neq in Ei]);
  (destruct (String.eqb f "") eqn:Ef;
    [apply String.eqb_eq in Ef | apply String.eqb_neq in Ef]);
  (destruct (String.eqb p "") eqn:Ep;
    [apply String.eqb_eq in Ep | apply String.eqb_neq in Ep]);
  (destruct (String.eqb cn "") eqn:Ec;
    [apply String.eqb_eq in Ec | apply String.eqb_neq in Ec]);
  destruct au, ah; cbn; split; intros H.
  all: try (destruct H as (H1 & H2 & H3);
            try specialize (H2 eq_refl); try specialize (H3 eq_refl)).
  all: try solve [intuition congruence].
  all: repeat split; intros; try discriminate; tauto.
Qed.

Lemma validateFrom_None (k : nat) (svcs : list Service) :
  validateFrom k svcs = None <-> Forall serviceValid svcs.
Proof.
  revert k. induction svcs as [|s rest IH]; intros k; cbn.
  - split; [constructor | reflexivity].
  - destruct (validateService s) eqn:E.
    + split; [discriminate|]. intros H. inversion H as [|? ? Hs _]; subst.
      apply validateService_None in Hs. congruence.
    + rewrite IH. split; [intros H; constructor; [apply validateService_None|]; assumption|].
      intros H. inversion H; assumption.
Qed.

(** [validate] accepts a configuration exactly when every service has a
    name, every auto-update service has an image, a compose file and a
    compose project, and every auto-heal service has a compose project or
    a container name. *)
Theorem validate_ok_iff (c : FileConfig) :
  validate c = None <-> Forall serviceValid (fc_Services c).
Proof. apply validateFrom_None. Qed.

Lemma validateFrom_Some (k : nat) (svcs : list Service) (i : nat) (e : ValidationError) :
  validateFrom k svcs = Some (i, e) ->
  (k <= i)%nat /\ exists s, nth_error svcs (i - k) = Some s /\ validateService s = Some e /\
                            Forall serviceValid (firstn (i - k) svcs).
Proof.
  revert k. induction svcs as [|s rest IH]; intros k; cbn; [discriminate|].
  destruct (validateService s) eqn:E.
  - intros H. injection H as <- <-. split; [lia|]. rewrite Nat.sub_diag. cbn.
    exists s. split; [reflexivity|]. split; [exact E | constructor].
  - intros H. destruct (IH (S k) H) as (Hle & s' & Hn & Hv & Hf).
    split; [lia|]. replace (i - k)%nat with (S (i - S k)) by lia. cbn.
    exists s'. split; [exact Hn|]. split; [exact Hv|].
    constructor; [apply validateService_None, E | exact Hf].
Qed.

(** An error of [validate] names the first offending service: the
    service at the reported index fails with the reported reason and every
    service before it is valid. *)
Theorem validate_error_first (c : FileConfig) (i : nat) (e : ValidationError) :
  validate c = Some (i, e) ->
  exists s, nth_error (fc_Services c) i = Some s /\ validateService s = Some e /\
            Forall serviceValid (firstn i (fc_Services c)).
Proof.
  intros H. destruct (validateFrom_Some 0 _ i e H) as (_ & s & Hn & Hv & Hf).
  rewrite Nat.sub_0_r in Hn, Hf. eauto.
Qed.

Lemma validate_error_first_witness :
  validate (mkFileConfig "" 0 "" [svcApi; svcWeb; svcDb]) = Some (2%nat, ErrProjectOrContainerRequired) /\
  exists s, nth_error [svcApi; svcWeb; svcDb] 2 = Some s /\
            validateService s = Some ErrProjectOrContainerRequired /\
            Forall serviceValid (firstn 2 [svcApi; svcWeb; svcDb]).
Proof.
  assert (H : validate (mkFileConfig "" 0 "" [svcApi; svcWeb; svcDb])
                = Some (2%nat, ErrProjectOrContainerRequired)) by reflexivity.
  split; [exact H|]. exact (validate_error_first _ _ _ H).
Defined.

(** The defaults [Load] applies before validating never change the
    outcome of [validate]. *)
Theorem validate_setDefaults (c : FileConfig) : validate (setDefaults c) = validate c.
Proof.
  unfold validate. cbn. generalize 0%nat.
  induction (fc_Services c) as [|s rest IH]; intros k; cbn; [reflexivity|].
  change (validateService (serviceDefaults s)) with (validateService s).
  destruct (validateService s); [reflexivity | apply IH].
Qed.

(* ------------------------------------------------------------------ *)
(** ** Image references and local digests *)

Lemma str_length_app (x z : string) :
  String.length (x ++ z) = (String.length x + String.length z)%nat.
Proof. induction x as [|c x IH]; simpl; [reflexivity | rewrite IH; reflexivity]. Qed.

Lemma substring_app_r (x z : string) (m n : nat) :
  String.substring (String.length x + m) n (x ++ z) = String.substring m n z.
Proof. induction x as [|c x IH]; simpl; [reflexivity | exact IH]. Qed.

Lemma substring_full (z : string) : String.substring 0 (String.length z) z = z.
Proof. induction z as [|c z IH]; simpl; [reflexivity | rewrite IH; reflexivity]. Qed.

Lemma substring_app_l (x z : string) : String.substring 0 (String.length x) (x ++ z) = x.
Proof. induction x as [|c x IH]; simpl; [destruct z; reflexivity | rewrite IH; reflexivity]. Qed.

Lemma substring_after (x y : string) (c : ascii) :
  String.substring (S (String.length x)) (String.length (x ++ String c y) - S (String.length x))
                   (x ++ String c y) = y.
Proof.
  rewrite str_length_app. cbn [String.length].
  replace (String.length x + S (String.length y) - S (String.length x))%nat
    with (String.length y) by lia.
  replace (S (String.length x)) with (String.length x + 1)%nat by lia.
  rewrite substring_app_r. simpl. apply substring_full.
Qed.

Ltac norm_sep :=
  repeat match goal with
         | |- context [String.append (String ?c EmptyString) ?y] =>
             change (String.append (String c EmptyString) y) with (String c y)
         end.

Lemma lastIndexColon_Some (s : string) (i : nat) :
  lastIndexColon s = Some i ->
  exists x y, s = (x ++ ":" ++ y)%string /\ String.length x = i /\ lastIndexColon y = None.
Proof.
  revert i. induction s as [|c s IH]; intros i; simpl; [discriminate|].
  destruct (lastIndexColon s) as [j|] eqn:E.
  - intros H. injection H as <-. destruct (IH j eq_refl) as (x & y & -> & Hx & Hy).
    exists (String c x), y. simpl. rewrite Hx. auto.
  - destruct (Ascii.eqb c ":"%char) eqn:Ec; [|discriminate].
    intros H. injection H as <-. apply Ascii.eqb_eq in Ec. subst c.
    exists ""%string, s. auto.
Qed.

Lemma lastIndexColon_app (x y : string) :
  lastIndexColon y = None -> lastIndexColon (x ++ ":" ++ y)%string = Some (String.length x).
Proof.
  intros Hy. induction x as [|c x IH]; simpl.
  - change (String.append "" y) with y. rewrite Hy. reflexivity.
  - rewrite IH. reflexivity.
Qed.

(** A reference is split at its last ':': [imageName] is what comes
    before it and [imageTag] what comes after it (a tag never contains
    ':'), so that [name ++ ":" ++ tag] gives the reference back; without
    a ':' the name is the whole reference and the tag is [latest].  The
    registry client's [parseRef] splits the same way. *)
Theorem image_ref_split (image : string) :
  parseRef image = (imageName image, imageTag image) /\
  (lastIndexColon image <> None ->
     (imageName image ++ ":" ++ imageTag image)%string = image /\
     lastIndexColon (imageTag image) = None) /\
  (lastIndexColon image = None ->
     imageName image = image /\ imageTag image = "latest"%string).
Proof.
  split; [unfold parseRef, imageName, imageTag; destruct (lastIndexColon image); reflexivity|].
  unfold imageName, imageTag. split.
  - destruct (lastIndexColon image) as [i|] eqn:E; [intros _|congruence].
    destruct (lastIndexColon_Some _ _ E) as (x & y & -> & <- & Hy).
    norm_sep. rewrite substring_app_l, substring_after. auto.
  - intros ->. auto.
Qed.

Lemma image_ref_split_witness :
  lastIndexColon "localhost:5000/myapp:1.2" <> None /\
  (imageName "localhost:5000/myapp:1.2" ++ ":" ++ imageTag "localhost:5000/myapp:1.2")%string
    = "localhost:5000/myapp:1.2"%string.
Proof.
  refine (conj _ (proj1 (proj1 (proj2 (image_ref_split "localhost:5000/myapp:1.2")) _)));
    discriminate.
Defined.

(** For a reference [h:t] whose part [t] after the last ':' has no ':',
    [imageName] is [h] and [imageTag] is [t], whatever [h] holds: an
    untagged reference with a registry port, [host:port/name], is split at
    the port's ':' (name [host], tag [port/name]). *)
Theorem image_ref_last_colon (h t : string) :
  lastIndexColon t = None ->
  imageName (h ++ ":" ++ t) = h /\ imageTag (h ++ ":" ++ t) = t.
Proof.
  intros Ht. unfold imageName, imageTag. rewrite (lastIndexColon_app _ _ Ht).
  norm_sep. rewrite substring_app_l, substring_after. auto.
Qed.

Lemma image_ref_last_colon_witness :
  lastIndexColon "5000/myapp" = None /\
  imageName "localhost:5000/myapp" = "localhost"%string /\
  imageTag "localhost:5000/myapp" = "5000/myapp"%string.
Proof.
  refine (conj _ (image_ref_last_colon "localhost" "5000/myapp" _)); reflexivity.
Defined.

Lemma index_at_Some (d : string) (k : nat) :
  String.index 0 "@" d = Some k ->
  exists x y, d = (x ++ "@" ++ y)%string /\ String.length x = k /\ String.index 0 "@" x = None.
Proof.
  revert k. induction d as [|b d IH]; intros k; cbn [String.index String.prefix]; [discriminate|].
  destruct (Ascii.ascii_dec "@"%char b) as [<-|Hb]; cbn [String.prefix].
  - intros H. assert (Hp : String.prefix "" d = true) by (destruct d; reflexivity).
    rewrite Hp in H. injection H as <-. exists ""%string, d. auto.
  - destruct (String.index 0 "@" d) as [j|] eqn:E; [|discriminate].
    intros H. injection H as <-. destruct (IH j eq_refl) as (x & y & -> & Hx & Hn).
    exists (String b x), y. split; [reflexivity|]. split; [cbn; rewrite Hx; reflexivity|].
    cbn [String.index String.prefix].
    destruct (Ascii.ascii_dec "@"%char b); [congruence|]. rewrite Hn. reflexivity.
Qed.

Lemma index_at_app (x y : string) :
  String.index 0 "@" x = None -> String.index 0 "@" (x ++ "@" ++ y)%string = Some (String.length x).
Proof.
  induction x as [|b x IH]; intros Hx.
  - destruct y; reflexivity.
  - change ((String b x ++ "@" ++ y)%string) with (String b (x ++ "@" ++ y)).
    cbn [String.index String.prefix] in *.
    destruct (Ascii.ascii_dec "@"%char b); [destruct x; discriminate|].
    destruct (String.index 0 "@" x) eqn:E; [discriminate|]. rewrite (IH eq_refl). reflexivity.
Qed.

(** A digest returned by [LocalDigest] is read from a [RepoDigests] entry
    [x@digest] that starts with the registry prefix, and it is everything
    after the entry's first '@' ([x] has no '@').  Conversely, when the
    first entry is such an entry, its digest is the result. *)
Theorem LocalDigest_from_entry (img : ImageInspect) (prefix d : string) :
  (LocalDigest img prefix = d -> d <> ""%string ->
   exists x, In (x ++ "@" ++ d)%string (img_RepoDigests img) /\
             hasPrefix (x ++ "@" ++ d) prefix = true /\ String.index 0 "@" x = None) /\
  (forall x rest, img_RepoDigests img = (x ++ "@" ++ d)%string :: rest ->
     hasPrefix (x ++ "@" ++ d) prefix = true -> String.index 0 "@" x = None ->
     LocalDigest img prefix = d).
Proof.
  unfold LocalDigest. split.
  - intros <- Hne. induction (img_RepoDigests img) as [|e rest IH]; simpl in *; [congruence|].
    destruct (hasPrefix e prefix) eqn:Hp.
    + destruct (String.index 0 "@" e) as [k|] eqn:Ei.
      * destruct (index_at_Some _ _ Ei) as (x & y & -> & <- & Hx).
        norm_sep. rewrite substring_after. exists x. auto.
      * destruct (IH Hne) as (x & Hin & H). eauto.
    + destruct (IH Hne) as (x & Hin & H). eauto.
  - intros x rest -> Hp Hx. simpl. rewrite Hp, (index_at_app _ _ Hx).
    norm_sep. apply substring_after.
Qed.

Lemma LocalDigest_from_entry_witness :
  LocalDigest (mkImageInspect "sha256:img" ["localhost:5000/myapp@sha256:aaa"%string] [])
              "localhost:5000/myapp" = "sha256:aaa"%string.
Proof.
  refine (proj2 (LocalDigest_from_entry
                   (mkImageInspect "sha256:img" ["localhost:5000/myapp@sha256:aaa"%string] [])
                   "localhost:5000/myapp" "sha256:aaa") "localhost:5000/myapp" [] _ _ _);
    reflexivity.
Defined.

(* ------------------------------------------------------------------ *)
(** ** Whole-process invariants: counters and the blocked gauge *)

Lemma incr_ge (m : gmap string Z) (s k : string) : lookupZ m k <= lookupZ (incr m s) k.
Proof.
  unfold incr, lookupZ. destruct (decide (s = k)) as [<-|Hne].
  - rewrite lookup_insert_eq. cbn. lia.
  - rewrite lookup_insert_ne by exact Hne. lia.
Qed.

Lemma countersGrow_refl (st : St) : countersGrow st st.
Proof. intros k. lia. Qed.
Lemma countersGrow_trans (a b c : St) : countersGrow a b -> countersGrow b c -> countersGrow a c.
Proof. intros H1 H2 k. specialize (H1 k). specialize (H2 k). lia. Qed.

Ltac cg_leaf :=
  unfold countersGrow; cbn -[incr lookupZ]; intros ?k;
  repeat split; first [lia | apply incr_ge].

Ltac cg_crawl :=
  repeat (crawl_step countersGrow_refl countersGrow_trans || solve [cg_leaf] ||
          (progress unfold_ops) || (progress cbv zeta)).

Lemma verifyTick_cg (env : Env) (svc : Service) (o n f p : string) (dl : Z) :
  respects countersGrow (verifyTick env svc o n f p dl).
Proof. unfold verifyTick; cg_crawl. Qed.

Lemma verifyAfterDeploy_cg (start : Z) (ticks : list Env) (svc : Service) (o n f p : string) :
  respects countersGrow (verifyAfterDeploy start ticks svc o n f p).
Proof.
  unfold verifyAfterDeploy.
  apply (respects_bind _ countersGrow_trans); [|intros _; cg_crawl].
  generalize (start + durationSeconds (svc_HealthGrace svc)) as dl. intros dl.
  induction ticks as [|env rest IH]; cbn [verifyLoop]; [cg_crawl|].
  apply (respects_bind _ countersGrow_trans); [apply verifyTick_cg|].
  intros [|]; [cg_crawl | exact IH].
Qed.

Lemma checkAndUpdate_cg (cfg : Config) (env : Env) (svc : Service) :
  respects countersGrow (checkAndUpdate cfg env svc).
Proof. unfold checkAndUpdate, checkNotFoundStage, checkResolveStage, deploy; cg_crawl. Qed.

Lemma handleEvent_cg (cfg : Config) (env : Env) (e : Event) :
  respects countersGrow (handleEvent cfg env e).
Proof. unfold handleEvent, handleUnhealthy, handleHealthy, handleDied; cg_crawl. Qed.

Lemma verifyAfterRestart_cg (oenv : option Env) (svc : Service) (cn cid r : string) :
  respects countersGrow (verifyAfterRestart oenv svc cn cid r).
Proof. unfold verifyAfterRestart; cg_crawl. Qed.

Lemma triggerLoop_cg (name : string) (svcs : list Service) :
  respects countersGrow (triggerLoop name svcs).
Proof.
  induction svcs as [|svc rest IH]; cbn [triggerLoop];
    repeat (exact IH || crawl_step countersGrow_refl countersGrow_trans || solve [cg_leaf] ||
            (progress unfold_ops)).
Qed.

Lemma serveAPI_cg (cfg : Config) (r : Request) : respects countersGrow (serveAPI cfg r).
Proof.
  unfold serveAPI. destruct (negb _ && negb _); [cg_crawl|].
  destruct (bestRoute (req_Path r) routes) as [[? h]|]; [|cg_crawl].
  destruct h; cbn [runHandler];
    unfold handleTriggerAll, handleTriggerService, handleListBlocked, handleUnblockService,
      handleHealth, handleMetrics;
    repeat (apply triggerLoop_cg || crawl_step countersGrow_refl countersGrow_trans ||
            solve [cg_leaf] || (progress unfold_ops) || (progress cbv zeta)).
Qed.

Lemma step_cg (cfg : Config) (st st' : St) : step cfg st st' -> countersGrow st st'.
Proof.
  intros Hs. destruct Hs.
  - apply checkAndUpdate_cg.
  - apply verifyAfterDeploy_cg.
  - revert st. change (respects countersGrow (UnblockService s)). unfold UnblockService; cg_crawl.
  - apply handleEvent_cg.
  - apply verifyAfterRestart_cg.
  - apply serveAPI_cg.
Qed.

(** The per-service counters behind [watcher_updates_total],
    [watcher_rollbacks_total], [watcher_restarts_total] and
    [watcher_failures_total] never decrease, over any run of the process
    (as Prometheus counters must). *)
Theorem counters_monotone (cfg : Config) (st st' : St) :
  rtc (step cfg) st st' -> countersGrow st st'.
Proof.
  induction 1 as [st|a b c Hab _ IH]; [apply countersGrow_refl|].
  exact (countersGrow_trans _ _ _ (step_cg cfg _ _ Hab) IH).
Qed.

Lemma counters_monotone_witness :
  rtc (step cfg0) st0 (snd (checkAndUpdate cfg0 envOk svcApi st0)) /\
  countersGrow st0 (snd (checkAndUpdate cfg0 envOk svcApi st0)).
Proof.
  assert (H : rtc (step cfg0) st0 (snd (checkAndUpdate cfg0 envOk svcApi st0)))
    by (apply rtc_once; apply StepCheck).
  split; [exact H | exact (counters_monotone cfg0 _ _ H)].
Defined.

(* ------------------------------------------------------------------ *)
(** ** Healer: restart gating and outcomes *)

Lemma lookupZ_incr_same (m : gmap string Z) (k : string) : lookupZ (incr m k) k = lookupZ m k + 1.
Proof. unfold incr, lookupZ at 1. rewrite lookup_insert_eq. reflexivity. Qed.

Lemma handleUnhealthy_eff (env : Env) (svc : Service) (cn cid : string) (st : St) :
  let n := svc_Name svc in
  let st' := snd (handleUnhealthy env svc cn cid st) in
  let reason := match env_inspectContainer env cid with
                | inr info => LastHealthOutput info | inl _ => ""%string end in
  let gate := negb (IsDeploying st n) && svc_AutoHeal svc &&
              Z.ltb (lookupZ (restartCounts st) n) (svc_HealMaxRestarts svc) &&
              negb (inCooldown (env_now env) st cn) in
  (gate = false -> calls st' = calls st /\ cooldowns st' = cooldowns st /\ tasks st' = tasks st) /\
  (gate = true ->
   calls st' = calls st ++ [CRestartContainer cid 10] /\ restartCounts st' = restartCounts st /\
   match env_restart env cid 10 with
   | None =>
       cooldowns st' = <[cn := env_now env + durationSeconds (svc_HealCooldown svc)]> (cooldowns st) /\
       tasks st' = tasks st ++ [TVerifyAfterRestart svc cn cid reason] /\ alerts st' = alerts st
   | Some _ =>
       cooldowns st' = cooldowns st /\ tasks st' = tasks st /\
       lookupZ (m_failures (metrics st')) n = lookupZ (m_failures (metrics st)) n + 1 /\
       exists a, alerts st' = alerts st ++ [a] /\ al_Event a = "critical"%string /\
                 al_Level a = LevelCritical
   end).
Proof.
  cbv zeta.
  unfold handleUnhealthy, bind, gets, ret, modify, SetHealthy, setDegraded, send, issue, spawn,
    IncFailures, inCooldown.
  cbn -[lookupZ IsDeploying incr].
  destruct (IsDeploying st (svc_Name svc)); cbn -[lookupZ IsDeploying incr].
  { split; [tauto | discriminate]. }
  destruct (svc_AutoHeal svc); cbn -[lookupZ IsDeploying incr].
  2:{ split; [tauto | discriminate]. }
  rewrite Z.geb_leb, Z.ltb_antisym.
  destruct (Z.leb (svc_HealMaxRestarts svc) (lookupZ (restartCounts st) (svc_Name svc)));
    cbn -[lookupZ IsDeploying incr].
  { split; [tauto | discriminate]. }
  destruct (cooldowns st !! cn) as [dl|]; [destruct (Z.ltb (env_now env) dl)|];
    cbn -[lookupZ IsDeploying incr].
  { split; [tauto | discriminate]. }
  all: split; [discriminate|]; intros _.
  all: destruct (env_restart env cid 10); cbn -[lookupZ IsDeploying incr].
  all: repeat split; try reflexivity.
  all: try apply lookupZ_incr_same.
  all: eexists; repeat split; reflexivity.
Qed.

(** [handleUnhealthy] issues [RestartContainer(containerID, 10)] exactly
    when the service is not being deployed, has auto-heal on, has fewer
    consecutive failed restarts than [healMaxRestarts], and its container
    is not in cooldown; it issues no other engine or compose call. *)
Theorem handleUnhealthy_restart_gate (env : Env) (svc : Service) (cn cid : string) (st : St) :
  calls (snd (handleUnhealthy env svc cn cid st)) =
  if negb (IsDeploying st (svc_Name svc)) && svc_AutoHeal svc &&
     Z.ltb (lookupZ (restartCounts st) (svc_Name svc)) (svc_HealMaxRestarts svc) &&
     negb (inCooldown (env_now env) st cn)
  then calls st ++ [CRestartContainer cid 10] else calls st.
Proof.
  destruct (handleUnhealthy_eff env svc cn cid st) as [Hf Ht]. cbv zeta in Hf, Ht.
  destruct (negb _ && _ && _ && _).
  - apply Ht; reflexivity.
  - apply Hf; reflexivity.
Qed.

(** When the restart is attempted: if it succeeds, the container's
    cooldown deadline becomes now + [time.Duration(healCooldown) *
    time.Second] (nanoseconds, wrapping in int64) and a
    verify-after-restart task is started, with no alert yet; if it
    fails, no cooldown is recorded, no task is started, the failure
    counter grows by one and one critical alert is sent. The
    restart count is not touched by [handleUnhealthy] itself. *)
Theorem handleUnhealthy_restart_result (env : Env) (svc : Service) (cn cid : string) (st : St) :
  negb (IsDeploying st (svc_Name svc)) && svc_AutoHeal svc &&
  Z.ltb (lookupZ (restartCounts st) (svc_Name svc)) (svc_HealMaxRestarts svc) &&
  negb (inCooldown (env_now env) st cn) = true ->
  let st' := snd (handleUnhealthy env svc cn cid st) in
  restartCounts st' = restartCounts st /\
  match env_restart env cid 10 with
  | None =>
      cooldowns st' = <[cn := env_now env + durationSeconds (svc_HealCooldown svc)]> (cooldowns st) /\
      tasks st' = tasks st ++
        [TVerifyAfterRestart svc cn cid
           (match env_inspectContainer env cid with
            | inr info => LastHealthOutput info | inl _ => ""%string end)] /\
      alerts st' = alerts st
  | Some _ =>
      cooldowns st' = cooldowns st /\ tasks st' = tasks st /\
      lookupZ (m_failures (metrics st')) (svc_Name svc) =
        lookupZ (m_failures (metrics st)) (svc_Name svc) + 1 /\
      exists a, alerts st' = alerts st ++ [a] /\ al_Level a = LevelCritical
  end.
Proof.
  intros Hg. destruct (handleUnhealthy_eff env svc cn cid st) as [_ Ht]. cbv zeta in Ht |- *.
  destruct (Ht Hg) as (_ & Hr & Hm). split; [exact Hr|].
  destruct (env_restart env cid 10); [|exact Hm].
  destruct Hm as (H1 & H2 & H3 & a & H4 & _ & H5). repeat split; try assumption.
  exists a. split; assumption.
Qed.

Lemma handleUnhealthy_restart_result_witness :
  negb (IsDeploying st0 (svc_Name svcApi)) && svc_AutoHeal svcApi &&
  Z.ltb (lookupZ (restartCounts st0) (svc_Name svcApi)) (svc_HealMaxRestarts svcApi) &&
  negb (inCooldown (env_now envRestartFails) st0 "api-1") = true /\
  restartCounts (snd (handleUnhealthy envRestartFails svcApi "api-1" "c1" st0)) = restartCounts st0.
Proof.
  assert (Hg : negb (IsDeploying st0 (svc_Name svcApi)) && svc_AutoHeal svcApi &&
    Z.ltb (lookupZ (restartCounts st0) (svc_Name svcApi)) (svc_HealMaxRestarts svcApi) &&
    negb (inCooldown (env_now envRestartFails) st0 "api-1") = true) by reflexivity.
  split; [exact Hg|].
  exact (proj1 (handleUnhealthy_restart_result envRestartFails svcApi "api-1" "c1" st0 Hg)).
Defined.

(** Composition of two unhealthy events for the same container: after a
    successful restart, a later unhealthy event arriving before the
    cooldown deadline issues no further restart, whatever the restart
    count. The deadline is now + [time.Duration(healCooldown) *
    time.Second], a nanosecond product that wraps in int64. *)
Theorem restart_then_cooldown (env env' : Env) (svc : Service) (cn cid cid' : string) (st : St) :
  negb (IsDeploying st (svc_Name svc)) && svc_AutoHeal svc &&
  Z.ltb (lookupZ (restartCounts st) (svc_Name svc)) (svc_HealMaxRestarts svc) &&
  negb (inCooldown (env_now env) st cn) = true ->
  env_restart env cid 10 = None ->
  env_now env' < env_now env + durationSeconds (svc_HealCooldown svc) ->
  let st1 := snd (handleUnhealthy env svc cn cid st) in
  calls (snd (handleUnhealthy env' svc cn cid' st1)) = calls st1.
Proof.
  intros Hg Hr Hnow. cbv zeta.
  destruct (handleUnhealthy_eff env svc cn cid st) as [_ Ht]. cbv zeta in Ht.
  destruct (Ht Hg) as (_ & _ & Hm). rewrite Hr in Hm. destruct Hm as (Hc & _ & _).
  set (st1 := snd (handleUnhealthy env svc cn cid st)) in *.
  destruct (handleUnhealthy_eff env' svc cn cid' st1) as [Hf _]. cbv zeta in Hf.
  apply Hf.
  assert (Hcool : inCooldown (env_now env') st1 cn = true).
  { unfold inCooldown. rewrite Hc, lookup_insert_eq. apply Z.ltb_lt. exact Hnow. }
  rewrite Hcool. cbn [negb]. apply andb_false_r.
Qed.

Lemma restart_then_cooldown_witness :
  (negb (IsDeploying st0 (svc_Name svcApi)) && svc_AutoHeal svcApi &&
   Z.ltb (lookupZ (restartCounts st0) (svc_Name svcApi)) (svc_HealMaxRestarts svcApi) &&
   negb (inCooldown (env_now envUnhealthy) st0 "api") = true) /\
  env_restart envUnhealthy "c1" 10 = None /\
  env_now envUnhealthy < env_now envUnhealthy + durationSeconds (svc_HealCooldown svcApi) /\
  calls (snd (handleUnhealthy envUnhealthy svcApi "api" "c1"
                (snd (handleUnhealthy envUnhealthy svcApi "api" "c1" st0)))) =
  calls (snd (handleUnhealthy envUnhealthy svcApi "api" "c1" st0)).
Proof.
  assert (Hg : negb (IsDeploying st0 (svc_Name svcApi)) && svc_AutoHeal svcApi &&
    Z.ltb (lookupZ (restartCounts st0) (svc_Name svcApi)) (svc_HealMaxRestarts svcApi) &&
    negb (inCooldown (env_now envUnhealthy) st0 "api") = true) by reflexivity.
  assert (Hr : env_restart envUnhealthy "c1" 10 = None) by reflexivity.
  assert (Hn : env_now envUnhealthy < env_now envUnhealthy + durationSeconds (svc_HealCooldown svcApi))
    by (apply Z.ltb_lt; reflexivity).
  split; [exact Hg|]. split; [exact Hr|]. split; [exact Hn|].
  exact (restart_then_cooldown envUnhealthy envUnhealthy svcApi "api" "c1" "c1" st0 Hg Hr Hn).
Defined.

(** [verifyAfterRestart], once the container could be inspected: if it
    is still unhealthy, the consecutive restart count and the failure
    counter grow by one and one critical alert is sent; otherwise the
    restart counter grows by one, the restart count is left as it is and
    a "restarted" alert is sent. It never issues a call and never
    touches the cooldowns. *)
Theorem verifyAfterRestart_outcome (env : Env) (svc : Service) (cn cid r : string)
  (info : ContainerInspect) (st : St) :
  env_inspectContainer env cid = inr info ->
  let unhealthy := match cs_Health (ci_State info) with
                   | Some h => String.eqb (hs_Status h) "unhealthy" | None => false end in
  let n := svc_Name svc in
  let st' := snd (verifyAfterRestart (Some env) svc cn cid r st) in
  lookupZ (restartCounts st') n = lookupZ (restartCounts st) n + (if unhealthy then 1 else 0) /\
  lookupZ ((if unhealthy then m_failures else m_restarts) (metrics st')) n =
    lookupZ ((if unhealthy then m_failures else m_restarts) (metrics st)) n + 1 /\
  cooldowns st' = cooldowns st /\ calls st' = calls st /\
  exists a, alerts st' = alerts st ++ [a] /\
            al_Event a = (if unhealthy then "critical" else "restarted")%string.
Proof.
  intros Hi. cbv zeta. unfold verifyAfterRestart. rewrite Hi.
  destruct (match cs_Health (ci_State info) with
            | Some h => String.eqb (hs_Status h) "unhealthy" | None => false end).
  - unfold bind, gets, modify, IncFailures, send. cbn -[lookupZ incr].
    destruct (Z.geb _ _); cbn -[lookupZ incr];
      (split; [rewrite lookupZ_incr_same; reflexivity|]);
      (split; [apply lookupZ_incr_same|]);
      repeat split; eexists; split; reflexivity.
  - unfold bind, IncRestarts, SetHealthy, send, modify. cbn -[lookupZ incr].
    split; [lia|]. split; [apply lookupZ_incr_same|].
    repeat split; eexists; split; reflexivity.
Qed.

Lemma verifyAfterRestart_outcome_witness :
  env_inspectContainer envUnhealthy "c1" = inr unhealthyInspect /\
  lookupZ (restartCounts (snd (verifyAfterRestart (Some envUnhealthy) svcApi "api" "c1" "" st0)))
    "api" = lookupZ (restartCounts st0) "api" + 1.
Proof.
  assert (Hi : env_inspectContainer envUnhealthy "c1" = inr unhealthyInspect) by reflexivity.
  split; [exact Hi|].
  exact (proj1 (verifyAfterRestart_outcome envUnhealthy svcApi "api" "c1" "" unhealthyInspect st0 Hi)).
Defined.

Lemma findServiceIn_spec (project name : string) (svcs : list Service) :
  (forall svc, findServiceIn project name svcs = Some svc ->
     In svc svcs /\
     ((project <> ""%string /\ svc_ComposeProject svc = project) \/
      (name <> ""%string /\ svc_ContainerName svc = name))) /\
  (findServiceIn project name svcs = None <->
     forall svc, In svc svcs ->
       (project = ""%string \/ svc_ComposeProject svc <> project) /\
       (name = ""%string \/ svc_ContainerName svc <> name)).
Proof.
  induction svcs as [|s rest [IHs IHn]]; cbn [findServiceIn].
  - split; [intros ? H; discriminate|]. split; [intros _ ? Hin; contradiction Hin|reflexivity].
  - destruct (negb (String.eqb project "") && String.eqb (svc_ComposeProject s) project) eqn:E1.
    { apply andb_true_iff in E1 as [E1 E2]. apply negb_true_iff, String.eqb_neq in E1.
      apply String.eqb_eq in E2.
      split.
      - intros svc [= <-]. split; [left; reflexivity | left; tauto].
      - split; [discriminate|]. intros H. destruct (H s (or_introl eq_refl)) as [[Hp|Hp] _]; congruence. }
    destruct (negb (String.eqb name "") && String.eqb (svc_ContainerName s) name) eqn:E3.
    { apply andb_true_iff in E3 as [E3 E4]. apply negb_true_iff, String.eqb_neq in E3.
      apply String.eqb_eq in E4.
      split.
      - intros svc [= <-]. split; [left; reflexivity | right; tauto].
      - split; [discriminate|]. intros H. destruct (H s (or_introl eq_refl)) as [_ [Hp|Hp]]; congruence. }
    split.
    + intros svc H. destruct (IHs svc H) as [Hin Hm]. split; [right; exact Hin | exact Hm].
    + rewrite IHn. split.
      * intros H svc [<-|Hin]; [|exact (H svc Hin)].
        apply andb_false_iff in E1, E3.
        destruct E1 as [E1|E1], E3 as [E3|E3];
          repeat match goal with
          | E : negb _ = false |- _ => apply negb_false_iff in E
          | E : String.eqb _ _ = true |- _ => apply String.eqb_eq in E
          | E : String.eqb _ _ = false |- _ => apply String.eqb_neq in E
          end; tauto.
      * intros H svc Hin. exact (H svc (or_intror Hin)).
Qed.

(** [findServiceByEvent] only returns a configured service that matches
    the event: its compose project equals the non-empty
    [com.docker.compose.project] label, or its container name equals the
    non-empty [name] attribute. It finds nothing exactly when no
    configured service matches either way; in particular an event with
    neither attribute is never attributed to a service. *)
Theorem findServiceByEvent_spec (cfg : Config) (e : Event) :
  let project := lookupS (ev_Attributes e) "com.docker.compose.project" in
  let name := lookupS (ev_Attributes e) "name" in
  (forall svc, findServiceByEvent cfg e = Some svc ->
     In svc (cfg_Services cfg) /\
     ((project <> ""%string /\ svc_ComposeProject svc = project) \/
      (name <> ""%string /\ svc_ContainerName svc = name))) /\
  (findServiceByEvent cfg e = None <->
     forall svc, In svc (cfg_Services cfg) ->
       (project = ""%string \/ svc_ComposeProject svc <> project) /\
       (name = ""%string \/ svc_ContainerName svc <> name)).
Proof. cbv zeta. unfold findServiceByEvent. apply findServiceIn_spec. Qed.

(* ------------------------------------------------------------------ *)
(** ** Updater: deploy, verification and the deploy gate *)

Lemma deploy_while_deploying (cfg : Config) (env : Env) (svc : Service) (o n : string) (st : St) :
  IsDeploying st (svc_Name svc) = true -> deploy cfg env svc o n st = (None, st).
Proof.
  intros H. unfold deploy, tryStartDeploy, bind, gets, ret. cbn -[IsDeploying].
  rewrite H. reflexivity.
Qed.

(** A deploy whose compose pull and up succeed, started while no deploy
    of the service is in progress: it returns no error, marks the service
    as deploying since now, issues the rollback tag (only when there is
    an old digest), then compose pull and compose up, starts the
    verification task and sends no alert. The service is then marked
    as deploying, and in every state where that mark is still set (until
    the verification or a failure clears it) any further deploy of the
    service returns at once and does nothing. *)
Theorem deploy_success (cfg : Config) (env : Env) (svc : Service) (o n : string) (st : St) :
  IsDeploying st (svc_Name svc) = false ->
  env_composePull env (svc_ComposeFile svc) (svc_ComposeProject svc) = None ->
  env_composeUp env (svc_ComposeFile svc) (svc_ComposeProject svc) = None ->
  let p := registryPrefixOf cfg svc in
  let full := (p ++ ":" ++ imageTag (svc_Image svc))%string in
  fst (deploy cfg env svc o n st) = None /\
  deploying (snd (deploy cfg env svc o n st)) = <[svc_Name svc := env_now env]> (deploying st) /\
  calls (snd (deploy cfg env svc o n st)) =
    calls st ++ (if String.eqb o "" then [] else [CTagImage full p "rollback"]) ++
      [CComposePull (svc_ComposeFile svc) (svc_ComposeProject svc);
       CComposeUp (svc_ComposeFile svc) (svc_ComposeProject svc)] /\
  tasks (snd (deploy cfg env svc o n st)) = tasks st ++ [TVerifyAfterDeploy svc o n full p] /\
  alerts (snd (deploy cfg env svc o n st)) = alerts st /\
  IsDeploying (snd (deploy cfg env svc o n st)) (svc_Name svc) = true /\
  (forall st2 env' o' n',
     IsDeploying st2 (svc_Name svc) = true -> deploy cfg env' svc o' n' st2 = (None, st2)).
Proof.
  intros Hd Hp Hu. cbv zeta.
  assert (E : deploy cfg env svc o n st =
    (None,
     {| deploying := <[svc_Name svc := env_now env]> (deploying st); blocked := blocked st;
        notFound := notFound st; cooldowns := cooldowns st; degraded := degraded st;
        restartCounts := restartCounts st; metrics := metrics st; alerts := alerts st;
        calls := calls st ++ (if String.eqb o "" then [] else
                   [CTagImage (registryPrefixOf cfg svc ++ ":" ++ imageTag (svc_Image svc))
                      (registryPrefixOf cfg svc) "rollback"]) ++
                 [CComposePull (svc_ComposeFile svc) (svc_ComposeProject svc);
                  CComposeUp (svc_ComposeFile svc) (svc_ComposeProject svc)];
        tasks := tasks st ++ [TVerifyAfterDeploy svc o n
                   (registryPrefixOf cfg svc ++ ":" ++ imageTag (svc_Image svc))
                   (registryPrefixOf cfg svc)] |})).
  { unfold deploy, tryStartDeploy, bind, gets, ret, modify, issue, spawn, clearDeploying.
    cbn -[IsDeploying registryPrefixOf imageTag String.append]. rewrite Hd.
    cbn -[IsDeploying registryPrefixOf imageTag String.append].
    destruct (String.eqb o ""); cbn -[IsDeploying registryPrefixOf imageTag String.append];
      rewrite Hp; cbn -[IsDeploying registryPrefixOf imageTag String.append]; rewrite Hu;
      rewrite <- ?app_assoc; reflexivity. }
  rewrite E. cbn [fst snd deploying calls tasks alerts].
  do 5 (split; [reflexivity|]). split.
  - unfold IsDeploying. cbn [deploying]. rewrite lookup_insert_eq.
    apply bool_decide_eq_true. eexists; reflexivity.
  - intros st2 env' o' n'. apply deploy_while_deploying.
Qed.

Lemma deploy_success_witness :
  IsDeploying st0 (svc_Name svcApi) = false /\
  env_composePull envOk (svc_ComposeFile svcApi) (svc_ComposeProject svcApi) = None /\
  env_composeUp envOk (svc_ComposeFile svcApi) (svc_ComposeProject svcApi) = None /\
  fst (deploy cfg0 envOk svcApi "sha256:aaa" "sha256:bbb" st0) = None.
Proof.
  assert (H1 : IsDeploying st0 (svc_Name svcApi) = false) by reflexivity.
  assert (H2 : env_composePull envOk (svc_ComposeFile svcApi) (svc_ComposeProject svcApi) = None)
    by reflexivity.
  assert (H3 : env_composeUp envOk (svc_ComposeFile svcApi) (svc_ComposeProject svcApi) = None)
    by reflexivity.
  split; [exact H1|]. split; [exact H2|]. split; [exact H3|].
  exact (proj1 (deploy_success cfg0 envOk svcApi "sha256:aaa" "sha256:bbb" st0 H1 H2 H3)).
Defined.

Lemma verifyTick_cases (env : Env) (svc : Service) (o n f p : string) (dl : Z) (st : St) :
  (fst (verifyTick env svc o n f p dl st) = false /\ snd (verifyTick env svc o n f p dl st) = st) \/
  (fst (verifyTick env svc o n f p dl st) = true /\
   deploying (snd (verifyTick env svc o n f p dl st)) = deploying st /\
   exists a, alerts (snd (verifyTick env svc o n f p dl st)) = alerts st ++ [a]).
Proof.
  unfold verifyTick, rollback, rollbackRestore, blockDigest, onDeploySuccess, cleanupRollback,
    IncRollbacks, IncUpdates, IncFailures, SetHealthy, SetBlocked, send, issue, bind, ret, modify.
  repeat (cbn -[findContainerByProject];
    match goal with
    | |- context [match ?x with Some _ => _ | None => _ end] => destruct x
    | |- context [match ?x with None => _ | Some _ => _ end] => destruct x
    | |- context [match ?x with inl _ => _ | inr _ => _ end] => destruct x
    | |- context [if ?c then _ else _] => destruct c
    end);
    first [left; split; reflexivity | right; split; [reflexivity|]; split; [reflexivity|];
                                      eexists; reflexivity].
Qed.

Lemma verifyLoop_eff (ticks : list Env) (svc : Service) (o n f p : string) (dl : Z) (st : St) :
  deploying (snd (verifyLoop ticks svc o n f p dl st)) = deploying st /\
  exists l, alerts (snd (verifyLoop ticks svc o n f p dl st)) = alerts st ++ l /\
            (length l <= 1)%nat.
Proof.
  revert st. induction ticks as [|env rest IH]; intros st; cbn [verifyLoop].
  - split; [reflexivity|]. exists []. rewrite app_nil_r. split; [reflexivity | cbn; lia].
  - unfold bind.
    destruct (verifyTick_cases env svc o n f p dl st) as [[Hb Hs]|[Hb [Hd [a Ha]]]];
      destruct (verifyTick env svc o n f p dl st) as [b st1]; cbn [fst snd] in *; subst b.
    + subst st1. apply IH.
    + split; [exact Hd|]. exists [a]. split; [exact Ha | cbn; lia].
Qed.

(** [verifyAfterDeploy] always ends with the service's deploying mark
    removed (the deferred [clearDeploying]), whatever the ticks observe
    and also when it is cancelled, and it sends at most one alert (the
    "updated" or "rolled_back" alert of the tick that concludes). *)
Theorem verifyAfterDeploy_clears (start : Z) (ticks : list Env) (svc : Service) (o n f p : string)
  (st : St) :
  deploying (snd (verifyAfterDeploy start ticks svc o n f p st)) =
    delete (svc_Name svc) (deploying st) /\
  exists l, alerts (snd (verifyAfterDeploy start ticks svc o n f p st)) = alerts st ++ l /\
            (length l <= 1)%nat.
Proof.
  unfold verifyAfterDeploy, bind.
  destruct (verifyLoop_eff ticks svc o n f p (start + durationSeconds (svc_HealthGrace svc)) st) as [Hd Ha].
  destruct (verifyLoop ticks svc o n f p (start + durationSeconds (svc_HealthGrace svc)) st) as [u st1].
  cbn in Hd, Ha |- *. rewrite Hd. split; [reflexivity | exact Ha].
Qed.

Lemma deploy_calls (cfg : Config) (env : Env) (svc : Service) (o n : string) (st : St) :
  calls (snd (deploy cfg env svc o n st)) <> calls st -> IsDeploying st (svc_Name svc) = false.
Proof.
  intros H. destruct (IsDeploying st (svc_Name svc)) eqn:E; [|reflexivity].
  rewrite (deploy_while_deploying cfg env svc o n st E) in H. cbn in H. congruence.
Qed.

Lemma checkResolveStage_calls (cfg : Config) (env : Env) (svc : Service) (d : string) (st : St) :
  calls (snd (checkResolveStage cfg env svc d st)) <> calls st ->
  resolveLocalDigest env svc (registryPrefixOf cfg svc) <> ""%string /\
  resolveLocalDigest env svc (registryPrefixOf cfg svc) <> d /\
  IsDeploying st (svc_Name svc) = false.
Proof.
  unfold checkResolveStage. cbv zeta.
  destruct (String.eqb (resolveLocalDigest env svc (registryPrefixOf cfg svc)) "") eqn:E1.
  { unfold bind, modify, send, ret. cbn. congruence. }
  destruct (String.eqb (resolveLocalDigest env svc (registryPrefixOf cfg svc)) d) eqn:E2.
  { cbn. congruence. }
  intros H. apply deploy_calls in H. apply String.eqb_neq in E1, E2. tauto.
Qed.

Lemma checkNotFoundStage_calls (cfg : Config) (env : Env) (svc : Service) (d : string) (st : St) :
  d <> ""%string ->
  calls (snd (checkNotFoundStage cfg env svc d st)) <> calls st ->
  lookupS (notFound st) (svc_Name svc) <> d /\
  resolveLocalDigest env svc (registryPrefixOf cfg svc) <> ""%string /\
  resolveLocalDigest env svc (registryPrefixOf cfg svc) <> d /\
  IsDeploying st (svc_Name svc) = false.
Proof.
  intros Hd. unfold checkNotFoundStage, bind at 1, gets. cbn -[checkResolveStage lookupS].
  destruct (String.eqb (lookupS (notFound st) (svc_Name svc)) "") eqn:E0;
    cbn -[checkResolveStage lookupS].
  - intros H. apply checkResolveStage_calls in H. apply String.eqb_eq in E0. rewrite E0.
    split; [congruence | exact H].
  - destruct (String.eqb (lookupS (notFound st) (svc_Name svc)) d) eqn:E2.
    { cbn. congruence. }
    unfold bind, modify. cbn -[checkResolveStage lookupS]. intros H.
    match type of H with
    | calls (snd (checkResolveStage _ _ _ _ ?s)) <> _ => change (calls st) with (calls s) in H
    end.
    apply checkResolveStage_calls in H. apply String.eqb_neq in E2.
    destruct H as (H1 & H2 & H3). repeat split; assumption.
Qed.

(** [checkAndUpdate] issues engine or compose calls (that is, starts a
    deploy) only when the registry returned a digest [d], [d] is not the
    blocked digest nor the not-found digest recorded for the service, a
    local digest was resolved and differs from [d], and no deploy of the
    service is in progress. Otherwise the call trace is left as it is. *)
Theorem checkAndUpdate_deploy_gate (cfg : Config) (env : Env) (svc : Service) (st : St) :
  calls (snd (checkAndUpdate cfg env svc st)) <> calls st ->
  exists d,
    RemoteDigest (svc_Image svc) (env_registry env (svc_Image svc)) = inr d /\
    lookupS (blocked st) (svc_Name svc) <> d /\
    lookupS (notFound st) (svc_Name svc) <> d /\
    resolveLocalDigest env svc (registryPrefixOf cfg svc) <> ""%string /\
    resolveLocalDigest env svc (registryPrefixOf cfg svc) <> d /\
    IsDeploying st (svc_Name svc) = false.
Proof.
  unfold checkAndUpdate.
  destruct (RemoteDigest (svc_Image svc) (env_registry env (svc_Image svc))) as [err|d] eqn:ER.
  { cbn. congruence. }
  pose proof (RemoteDigest_nonempty _ _ _ ER) as Hd.
  intros H0. exists d. split; [reflexivity|]. revert H0.
  unfold bind at 1, gets. cbn -[checkNotFoundStage lookupS].
  destruct (String.eqb (lookupS (blocked st) (svc_Name svc)) "") eqn:E0;
    cbn -[checkNotFoundStage lookupS].
  - intros H. apply (checkNotFoundStage_calls _ _ _ _ _ Hd) in H.
    apply String.eqb_eq in E0. rewrite E0. split; [congruence | exact H].
  - destruct (String.eqb (lookupS (blocked st) (svc_Name svc)) d) eqn:E2.
    { cbn. congruence. }
    unfold bind, modify, SetBlocked. cbn -[checkNotFoundStage lookupS]. intros H.
    match type of H with
    | calls (snd (checkNotFoundStage _ _ _ _ ?s)) <> _ => change (calls st) with (calls s) in H
    end.
    apply (checkNotFoundStage_calls _ _ _ _ _ Hd) in H. apply String.eqb_neq in E2.
    destruct H as (H1 & H2 & H3 & H4). repeat split; assumption.
Qed.

Lemma checkAndUpdate_deploy_gate_witness :
  calls (snd (checkAndUpdate cfg0 envOk svcApi st0)) <> calls st0 /\
  RemoteDigest (svc_Image svcApi) (env_registry envOk (svc_Image svcApi)) = inr "sha256:bbb"%string.
Proof.
  assert (H : calls (snd (checkAndUpdate cfg0 envOk svcApi st0)) <> calls st0)
    by (vm_compute; discriminate).
  split; [exact H|].
  destruct (checkAndUpdate_deploy_gate cfg0 envOk svcApi st0 H) as (d & Hr & _).
  rewrite Hr. f_equal. vm_compute in Hr. congruence.
Defined.

(* ------------------------------------------------------------------ *)
(** ** Control API: trigger one service, unblock *)

Lemma hasPrefix_app (p s : string) : hasPrefix (p ++ s) p = true.
Proof.
  induction p as [|c p IH]; [destruct s; reflexivity|].
  change ((String c p ++ s)%string) with (String c (p ++ s)). cbn [hasPrefix].
  rewrite Ascii.eqb_refl, IH. reflexivity.
Qed.

Lemma trimPrefix_app (p s : string) : trimPrefix (p ++ s) p = s.
Proof.
  unfold trimPrefix. rewrite hasPrefix_app, str_length_app.
  replace (String.length p + String.length s - String.length p)%nat with (String.length s) by lia.
  rewrite <- (Nat.add_0_r (String.length p)) at 1. rewrite substring_app_r. apply substring_full.
Qed.

Lemma triggerLoop_find (name : string) (svcs : list Service) (st : St) :
  match findByName name svcs with
  | None => triggerLoop name svcs st = (None, st)
  | Some svc =>
      exists resp, resp_Status resp = 200 /\
        triggerLoop name svcs st =
        (Some resp, if svc_AutoUpdate svc && negb (IsDeploying st name)
                    then snd (spawn (TCheckAndUpdate svc) st) else st)
  end.
Proof.
  induction svcs as [|s rest IH]; cbn [triggerLoop findByName]; [reflexivity|].
  destruct (String.eqb (svc_Name s) name); [|exact IH].
  destruct (svc_AutoUpdate s); cbn [negb andb].
  - unfold bind, gets, ret. cbn -[IsDeploying spawn].
    destruct (IsDeploying st name); cbn -[spawn]; (eexists; split; [|reflexivity]; reflexivity).
  - eexists; split; [|reflexivity]; reflexivity.
Qed.

(** [POST /trigger/<name>] for a non-empty name whose request path is
    already clean (no empty, "." or ".." segment, which the mux would
    first redirect): when no configured
    service has that name the answer is 404 and nothing changes; for the
    first service with that name the answer is 200, and a
    [checkAndUpdate] task for it is started exactly when its
    [auto_update] is on and no deploy of it is in progress (otherwise the
    answer says "skipped" and nothing changes). *)
Theorem api_trigger_service (cfg : Config) (st : St) (name : string) :
  name <> ""%string ->
  cleanPath ("/trigger/" ++ name) = ("/trigger/" ++ name)%string ->
  let r := mkRequest MethodPost ("/trigger/" ++ name) in
  match findByName name (cfg_Services cfg) with
  | None => resp_Status (fst (serveAPI cfg r st)) = 404 /\ snd (serveAPI cfg r st) = st
  | Some svc =>
      resp_Status (fst (serveAPI cfg r st)) = 200 /\
      snd (serveAPI cfg r st) =
        if svc_AutoUpdate svc && negb (IsDeploying st name)
        then snd (spawn (TCheckAndUpdate svc) st) else st
  end.
Proof.
  intros Hn Hc. cbv zeta. unfold serveAPI. cbn [req_Path].
  rewrite Hc, String.eqb_refl, andb_false_r, route_trigger_sub.
  cbn [runHandler]. unfold handleTriggerService. cbn [req_Method req_Path].
  rewrite trimPrefix_app, (String_eqb_neq name "" Hn).
  change (String.eqb MethodPost MethodPost) with true. cbn [negb].
  unfold bind.
  pose proof (triggerLoop_find name (cfg_Services cfg) st) as Ht.
  destruct (findByName name (cfg_Services cfg)) as [svc|].
  - destruct Ht as (resp & Hs & Ht). rewrite Ht. split; [exact Hs | reflexivity].
  - rewrite Ht. split; reflexivity.
Qed.

Lemma api_trigger_service_witness :
  "api"%string <> ""%string /\
  cleanPath ("/trigger/" ++ "api") = ("/trigger/" ++ "api")%string /\
  snd (serveAPI cfg0 (mkRequest MethodPost ("/trigger/" ++ "api")) st0) =
    snd (spawn (TCheckAndUpdate svcApi) st0).
Proof.
  assert (Hn : "api"%string <> ""%string) by discriminate.
  assert (Hc : cleanPath ("/trigger/" ++ "api") = ("/trigger/" ++ "api")%string)
    by reflexivity.
  split; [exact Hn|]. split; [exact Hc|].
  exact (proj2 (api_trigger_service cfg0 st0 "api" Hn Hc)).
Defined.

Lemma serveAPI_unblock (cfg : Config) (st : St) (name : string) :
  name <> ""%string ->
  cleanPath ("/blocked/" ++ name) = ("/blocked/" ++ name)%string ->
  serveAPI cfg (mkRequest MethodDelete ("/blocked/" ++ name)) st =
  (writeJSONObj [("status", if bool_decide (is_Some (blocked st !! name))
                            then "unblocked" else "not_blocked"); ("service", name)]%string,
   snd (UnblockService name st)).
Proof.
  intros Hn Hc. unfold serveAPI. cbn [req_Path].
  rewrite Hc, String.eqb_refl, andb_false_r, route_blocked_sub.
  cbn [runHandler]. unfold handleUnblockService. cbn [req_Method req_Path].
  rewrite trimPrefix_app, (String_eqb_neq name "" Hn).
  change (String.eqb MethodDelete MethodDelete) with true. cbn [negb].
  unfold UnblockService, bind, gets, modify, ret, SetBlocked. cbn -[writeJSONObj].
  destruct (bool_decide (is_Some (blocked st !! name))); reflexivity.
Qed.

(** [DELETE /blocked/<name>] for a non-empty name whose request path is
    already clean (no empty, "." or ".." segment, which the mux would
    first redirect) answers 200,
    "unblocked" when the service had a blocked digest and "not_blocked"
    otherwise; afterwards the service has no blocked digest (and its
    blocked gauge is 0 when it had one), so repeating the request answers
    "not_blocked". *)
Theorem api_unblock (cfg : Config) (st : St) (name : string) :
  name <> ""%string ->
  cleanPath ("/blocked/" ++ name) = ("/blocked/" ++ name)%string ->
  let r := mkRequest MethodDelete ("/blocked/" ++ name) in
  let was := bool_decide (is_Some (blocked st !! name)) in
  let st' := snd (serveAPI cfg r st) in
  resp_Status (fst (serveAPI cfg r st)) = 200 /\
  resp_Body (fst (serveAPI cfg r st)) =
    BJSONObject [("status", if was then "unblocked" else "not_blocked"); ("service", name)]%string /\
  blocked st' = delete name (blocked st) /\
  (was = true -> lookupB (m_serviceBlocked (metrics st')) name = false) /\
  resp_Body (fst (serveAPI cfg r st')) =
    BJSONObject [("status", "not_blocked"); ("service", name)]%string.
Proof.
  intros Hn Hc. cbv zeta. rewrite !(serveAPI_unblock cfg _ name Hn Hc). cbn [fst snd].
  assert (Hb : blocked (snd (UnblockService name st)) = delete name (blocked st)).
  { unfold UnblockService, bind, gets, modify, ret, SetBlocked.
    destruct (bool_decide (is_Some (blocked st !! name))); reflexivity. }
  split; [reflexivity|]. split; [reflexivity|]. split; [exact Hb|]. split.
  - intros Hw. unfold UnblockService, bind, gets, modify, ret, SetBlocked. rewrite Hw.
    cbn. unfold lookupB. rewrite lookup_insert_eq. reflexivity.
  - rewrite Hb, lookup_delete_eq. reflexivity.
Qed.

Lemma api_unblock_witness :
  "api"%string <> ""%string /\
  cleanPath ("/blocked/" ++ "api") = ("/blocked/" ++ "api")%string /\
  blocked (snd (serveAPI cfg0 (mkRequest MethodDelete ("/blocked/" ++ "api")) stBlocked)) =
    delete "api"%string (blocked stBlocked).
Proof.
  assert (Hn : "api"%string <> ""%string) by discriminate.
  assert (Hc : cleanPath ("/blocked/" ++ "api") = ("/blocked/" ++ "api")%string)
    by reflexivity.
  split; [exact Hn|]. split; [exact Hc|].
  exact (proj1 (proj2 (proj2 (api_unblock cfg0 stBlocked "api" Hn Hc)))).
Defined.

(* ------------------------------------------------------------------ *)
(** ** Registry digest and registry host *)

(** [RemoteDigest] yields a digest exactly when the registry answered
    HTTP 200 with a non-empty [Docker-Content-Digest] header, and then it
    is that header; every other answer (transport error, 404, other
    status, missing header) is an error. *)
Theorem RemoteDigest_ok_iff (image : string) (resp : RegResp) (d : string) :
  RemoteDigest image resp = inr d <-> resp = RegHTTP 200 d /\ d <> ""%string.
Proof.
  unfold RemoteDigest. destruct (parseRef image) as [name tag].
  destruct resp as [msg|status dg].
  { split; [discriminate | intros [H _]; discriminate H]. }
  destruct (Z.eqb status 404) eqn:E1.
  { split; [discriminate | intros [H _]; injection H as -> _; discriminate E1]. }
  destruct (negb (Z.eqb status 200)) eqn:E2.
  { split; [discriminate | intros [H _]; injection H as -> _; discriminate E2]. }
  destruct (String.eqb dg "") eqn:E3.
  { split; [discriminate | intros [H Hd]; injection H as _ ->].
    apply String.eqb_eq in E3. contradiction. }
  apply negb_false_iff, Z.eqb_eq in E2. subst status.
  split.
  - intros H. injection H as <-. split; [reflexivity | apply String.eqb_neq; exact E3].
  - intros [H _]. injection H as <-. reflexivity.
Qed.

Lemma trimRightSlash_last (s x : string) (c : ascii) :
  trimRightSlash s = (x ++ String c "")%string -> c <> "/"%char.
Proof.
  revert x. induction s as [|c0 r IH]; intros x H.
  - destruct x; discriminate H.
  - cbn [trimRightSlash] in H. destruct (trimRightSlash r) as [|c1 r1] eqn:Er.
    + destruct (Ascii.eqb c0 "/") eqn:Ec.
      * destruct x; discriminate H.
      * destruct x as [|c2 x].
        -- injection H as ->. intros ->. discriminate Ec.
        -- injection H as _ H. destruct x; discriminate H.
    + destruct x as [|c2 x].
      * injection H as _ H. discriminate H.
      * injection H as _ H. apply (IH x). rewrite H. reflexivity.
Qed.

(** [registryHost] never ends in '/': the scheme prefixes are removed
    and every trailing slash is trimmed, so the registry prefix
    host + "/" + image name built from it has no doubled slash there. *)
Theorem registryHost_no_trailing_slash (url s : string) (c : ascii) :
  registryHost url = (s ++ String c "")%string -> c <> "/"%char.
Proof. unfold registryHost. apply trimRightSlash_last. Qed.

Lemma registryHost_no_trailing_slash_witness :
  registryHost "https://localhost:5000/" = ("localhost:500" ++ String "0" "")%string /\
  "0"%char <> "/"%char.
Proof.
  assert (H : registryHost "https://localhost:5000/" = ("localhost:500" ++ String "0" "")%string)
    by reflexivity.
  split; [exact H | exact (registryHost_no_trailing_slash _ _ _ H)].
Defined.
